(** * Auto Video Composer plugin (plugins/wan2gp-auto-composer/plugin.py)

    A shallow embedding of the segment planner of the plugin and of the
    handler that feeds the host's generation queue, together with the
    properties of the planner that the design document states.

    Conventions of the embedding.
    - A Python [str] is a list of Unicode code points ([N]).
    - [int]s that stay integers (segment count, frame counts, indices)
      are [Z].  The planner and the handler are written once over the
      arithmetic of their numbers (class [Number]); CPython's [float] is
      the instance [Binary64.binary64_number], IEEE binary64 with every
      operation rounded.  The general properties are proved for every
      instance of the class, from what the code does with the results of
      the operations, so they hold of the floats as they are; the
      examples and the counterexamples are computed on floats.
    - [_split_prompt] divides two [int]s and uses the quotient only under
      [math.ceil]; the quotient is exact in the model.
    - A Python exception is a value [Raise e] of the [result] type.
    - Dictionaries are finite maps ([gmap]) from keys to values. *)

From Stdlib Require Import ZArith QArith Qround Lqa Lia List String Ascii.
From Stdlib Require Import DecimalString SpecFloat.
From stdpp Require Import gmap strings list.

Local Open Scope Z_scope.

(** ** Exceptions *)

Inductive exn :=
  ZeroDivisionError | IndexError | TypeError | OverflowError | ValueError.

Inductive result (A : Type) :=
| Ok (a : A)
| Raise (e : exn).
Arguments Ok {A} a.
Arguments Raise {A} e.

Definition bind {A B} (r : result A) (k : A -> result B) : result B :=
  match r with
  | Ok a => k a
  | Raise e => Raise e
  end.

Notation "'do' x <- r ; k" := (bind r (fun x => k))
  (at level 10, x name, r at level 100, k at level 200).

(** [for x in l: s = body(s, x)], stopping at the first exception. *)
Fixpoint for_in {A S} (l : list A) (body : S -> A -> result S) (s : S) : result S :=
  match l with
  | [] => Ok s
  | x :: l' => do s' <- body s x; for_in l' body s'
  end.

(** [range(n)]: empty when [n <= 0]. *)
Definition range (n : Z) : list Z := seqZ 0 n.

(** ** Numbers *)

(** Rationals: the quotient of two [int]s, and the exact value of a
    float under [math.ceil] and [round]. *)
Module Py.

Definition Qltb (a b : Q) : bool := negb (Qle_bool b a).

(** [a / b] (true division). *)
Definition truediv (a b : Q) : result Q :=
  if Qeq_bool b 0 then Raise ZeroDivisionError else Ok (a / b)%Q.

(** [math.ceil]. *)
Definition ceil (q : Q) : Z := Qceiling q.

(** [round(x)]: nearest integer, a tie goes to the even neighbour. *)
Definition round (q : Q) : Z :=
  let f := Qfloor q in
  let r := (q - inject_Z f)%Q in
  if Qltb r (1 # 2) then f
  else if Qltb (1 # 2) r then f + 1
  else if Z.even f then f else f + 1.

End Py.

(** What the plugin asks of its numbers: an [int] operand taken into the
    arithmetic, [a * b], [a - b], [a + b], [a / b] (which raises on a zero
    divisor), [a < b], [a <= b], [math.ceil(x)], [round(x)] and
    [round(x, 2)]. *)
Class Number (F : Type) := {
  num_of_int : Z -> F;
  num_mul : F -> F -> F;
  num_sub : F -> F -> F;
  num_add : F -> F -> F;
  num_truediv : F -> F -> result F;
  num_ltb : F -> F -> bool;
  num_leb : F -> F -> bool;
  num_ceil : F -> result Z;
  num_round : F -> result Z;
  num_round2 : F -> F;
}.

Declare Scope num_scope.
Delimit Scope num_scope with num.
Notation "a * b" := (num_mul a b) : num_scope.
Notation "a - b" := (num_sub a b) : num_scope.
Notation "a + b" := (num_add a b) : num_scope.

(** [max(a, b)]: [b] is returned only when it is strictly greater than
    [a]. *)
Definition num_max {F} `{Number F} (a b : F) : F :=
  if num_ltb a b then b else a.

(** CPython's [float]: IEEE binary64, with every operation rounded to the
    nearest representable number (a tie to the even one).  A product or a
    quotient beyond the range is an infinity, which [math.ceil] and
    [round] refuse with [OverflowError]; they refuse a NaN with
    [ValueError].  [int] operands beyond the range of binary64, for which
    Python raises [OverflowError] at the conversion, are outside the
    model. *)
Module Binary64.

Definition prec : Z := 53.
Definition emax : Z := 1024.

(** The float nearest to the rational [n / d], rounded once. *)
Definition nearest (n : Z) (d : positive) : spec_float :=
  match n with
  | Z0 => S754_zero false
  | Zpos p => SFdiv prec emax (S754_finite false p 0) (S754_finite false d 0)
  | Zneg p => SFdiv prec emax (S754_finite true p 0) (S754_finite false d 0)
  end.

Definition of_int (z : Z) : spec_float := binary_normalize prec emax z 0 false.

(** The rational a float stands for; nothing for infinities and NaN. *)
Definition to_Q (f : spec_float) : result Q :=
  match f with
  | S754_zero _ => Ok 0%Q
  | S754_finite s m e =>
      let v :=
        match e with
        | Zneg p => (Z.pos m # 2 ^ p)%Q
        | _ => inject_Z (Z.pos m * 2 ^ e)
        end in
      Ok (if s then (- v)%Q else v)
  | S754_infinity _ => Raise OverflowError
  | S754_nan => Raise ValueError
  end.

Definition is_zero (f : spec_float) : bool :=
  match f with S754_zero _ => true | _ => false end.

Definition truediv (a b : spec_float) : result spec_float :=
  if is_zero b then Raise ZeroDivisionError else Ok (SFdiv prec emax a b).

Definition ceil (f : spec_float) : result Z :=
  do q <- to_Q f; Ok (Py.ceil q).

Definition round (f : spec_float) : result Z :=
  do q <- to_Q f; Ok (Py.round q).

(** [round(x, 2)]: the decimal with two places nearest to the exact value
    of [x] (a tie to the even one), then the float nearest to that
    decimal; zeros, infinities and NaN are returned as they are, and a
    value that rounds to zero keeps its sign. *)
Definition round2 (f : spec_float) : spec_float :=
  match f with
  | S754_finite s _ _ =>
      match to_Q f with
      | Ok q =>
          match Py.round (q * 100) with
          | Z0 => S754_zero s
          | k => nearest k 100
          end
      | Raise _ => f
      end
  | _ => f
  end.

#[global] Instance binary64_number : Number spec_float := {|
  num_of_int := of_int;
  num_mul := SFmul prec emax;
  num_sub := SFsub prec emax;
  num_add := SFadd prec emax;
  num_truediv := truediv;
  num_ltb := SFltb;
  num_leb := SFleb;
  num_ceil := ceil;
  num_round := round;
  num_round2 := round2;
|}.

(** The float written [k / 10^digits] in decimal, as Python reads the
    literal: the float nearest to it. *)
Definition decimal (k : Z) (digits : Z) : spec_float :=
  nearest k (Z.to_pos (10 ^ digits)).

End Binary64.

(** ** Text *)

Definition char := N.
Definition str := list char.

(** An ASCII literal as a [str]. *)
Definition lit (s : string) : str :=
  List.map N_of_ascii (list_ascii_of_string s).

(** [str(n)] for an [int]. *)
Definition str_of_int (z : Z) : str :=
  lit (NilZero.string_of_int (Z.to_int z)).

(** [str.isspace] of one character, which is also the class [\s] of [re]
    on [str] patterns. *)
Definition isspace (c : char) : bool :=
  (((9 <=? c) && (c <=? 13)) || ((28 <=? c) && (c <=? 32))
   || (c =? 133) || (c =? 160) || (c =? 5760)
   || ((8192 <=? c) && (c <=? 8202))
   || (c =? 8232) || (c =? 8233) || (c =? 8239) || (c =? 8287)
   || (c =? 12288))%N.

(** The class [[\n\r]]. *)
Definition is_linebreak (c : char) : bool := ((c =? 10) || (c =? 13))%N.

(** The class [[.!?]]. *)
Definition is_terminal (c : char) : bool :=
  ((c =? 46) || (c =? 33) || (c =? 63))%N.

Fixpoint lstrip (s : str) : str :=
  match s with
  | [] => []
  | c :: s' => if isspace c then lstrip s' else s
  end.

(** [s.strip()]. *)
Definition strip (s : str) : str := rev (lstrip (rev (lstrip s))).

(** [sep.join(l)]. *)
Fixpoint join (sep : str) (l : list str) : str :=
  match l with
  | [] => []
  | [x] => x
  | x :: l' => x ++ sep ++ join sep l'
  end.

(** [l[lo:hi]] for [0 <= lo]. *)
Definition slice {A} (l : list A) (lo hi : Z) : list A :=
  take (Z.to_nat (hi - lo)) (drop (Z.to_nat lo) l).

(** [l[-1]]. *)
Definition last_item {A} (l : list A) : result A :=
  match last l with
  | Some x => Ok x
  | None => Raise IndexError
  end.

(** [l[i]] for [0 <= i]. *)
Definition item {A} (l : list A) (i : Z) : result A :=
  match l !! Z.to_nat i with
  | Some x => Ok x
  | None => Raise IndexError
  end.

(** *** [re.split(r"[\n\r]+|(?<=[.!?])\s+", prompt)]

    The scanner walks the text once.  In [Text t] the next character is a
    candidate start of a match and [t] tells whether the character before
    it is one of [.!?]; the first alternative is tried first, so a line
    break starts a run of line breaks, and otherwise white space after a
    terminal mark starts a run of white space.  [InBreak] and [InSpace]
    are inside such a run, which is taken as long as it goes.  The piece
    before a match is emitted when the match starts; the piece after the
    last match is emitted at the end, empty when the text ends in a
    match. *)

Inductive scan := Text (after_terminal : bool) | InBreak | InSpace.

Fixpoint re_split_go (st : scan) (cur : str) (s : str) : list str :=
  match s with
  | [] => [rev cur]
  | c :: rest =>
      match st with
      | Text t =>
          if is_linebreak c then rev cur :: re_split_go InBreak [] rest
          else if t && isspace c then rev cur :: re_split_go InSpace [] rest
          else re_split_go (Text (is_terminal c)) (c :: cur) rest
      | InBreak =>
          if is_linebreak c then re_split_go InBreak [] rest
          else re_split_go (Text (is_terminal c)) [c] rest
      | InSpace =>
          if isspace c then re_split_go InSpace [] rest
          else re_split_go (Text (is_terminal c)) [c] rest
      end
  end.

Definition re_split (s : str) : list str := re_split_go (Text false) [] s.

Definition is_empty {A} (l : list A) : bool :=
  match l with [] => true | _ => false end.

(** The sentence units of a prompt: the stripped, non-blank pieces. *)
Definition sentences_of (prompt : str) : list str :=
  List.map strip
    (List.filter (fun part => negb (is_empty (strip part))) (re_split prompt)).

(** ** The planner *)

Definition space : str := lit " ".

(** One turn of the loop of [_split_prompt]; the state is
    [(chunks, cursor)]. *)
Definition split_step (sentences : list str) (chunk_size : Z)
    (st : list str * Z) (_ : Z) : result (list str * Z) :=
  let '(chunks, cursor) := st in
  let chunk := slice sentences cursor (cursor + chunk_size) in
  do chunk <- (if is_empty chunk
               then do l <- last_item sentences; Ok [l]
               else Ok chunk);
  Ok (chunks ++ [join space chunk], cursor + chunk_size).

Definition _split_prompt (prompt : str) (segments : Z) : result (list str) :=
  let sentences := sentences_of prompt in
  if is_empty sentences then
    Ok (replicate (Z.to_nat segments) (strip prompt))
  else
    do q <- Py.truediv (inject_Z (Z.of_nat (length sentences))) (inject_Z segments);
    let chunk_size := Z.max 1 (Py.ceil q) in
    do st <- for_in (range segments) (split_step sentences chunk_size) ([], 0);
    Ok (fst st).

Definition annotation_tail : str :=
  lit ". Houd stijl, personages en camera gelijkmatig).".

(** The continuity note put after a chunk. *)
Definition annotation (number segments_count : Z) : str :=
  lit " (Segment " ++ str_of_int number ++ lit "/"
    ++ str_of_int segments_count ++ annotation_tail.

Section Planner.

Context {F : Type} `{Number F}.

(** One entry of the plan: the dictionary with the keys [index],
    [prompt], [seconds] and [frames]. *)
Record segment := {
  index : Z;
  prompt : str;
  seconds : F;
  frames : Z;
}.

(** The duration of segment [idx]. *)
Definition segment_duration (total_seconds segment_seconds : F)
    (segments_count idx : Z) : F :=
  if idx <? segments_count - 1 then segment_seconds
  else num_max segment_seconds
         (total_seconds - segment_seconds * num_of_int (segments_count - 1))%num.

(** The frame count of a segment of the given duration. *)
Definition segment_frames (duration fps : F) (min_frames frame_step : Z)
    : result Z :=
  do q <- num_truediv (duration * fps)%num (num_of_int frame_step);
  do r <- num_round q;
  Ok (Z.max min_frames (r * frame_step)).

(** One turn of the loop of [_build_segments_plan]; the state is [plan]. *)
Definition plan_step (chunks : list str)
    (total_seconds segment_seconds fps : F) (min_frames frame_step : Z)
    (segments_count : Z) (plan : list segment) (idx : Z)
    : result (list segment) :=
  let duration :=
    segment_duration total_seconds segment_seconds segments_count idx in
  do frames <- segment_frames duration fps min_frames frame_step;
  do chunk <- item chunks idx;
  let segment_prompt := chunk ++ annotation (idx + 1) segments_count in
  Ok (plan ++ [{| index := idx + 1;
                  prompt := segment_prompt;
                  seconds := num_round2 duration;
                  frames := frames |}]).

Definition _build_segments_plan (prompt : str)
    (total_minutes segment_seconds fps : F) (min_frames frame_step : Z)
    : result (list segment) :=
  let total_seconds := (total_minutes * num_of_int 60)%num in
  do q <- num_truediv total_seconds segment_seconds;
  do c <- num_ceil q;
  let segments_count := Z.max 1 c in
  do chunks <- _split_prompt prompt segments_count;
  for_in (range segments_count)
    (plan_step chunks total_seconds segment_seconds fps min_frames frame_step
       segments_count)
    [].

(** [_render_summary]; how Python prints the number under [seconds] is
    left to [repr_number]. *)
Definition _render_summary (repr_number : F -> str) (plan : list segment) : str :=
  let rows :=
    List.map (fun item =>
      lit "- Segment " ++ str_of_int (index item) ++ lit ": "
        ++ repr_number (seconds item) ++ lit "s (~"
        ++ str_of_int (frames item) ++ lit " frames) " ++ [8212%N] ++ lit " "
        ++ prompt item) plan in
  join [10%N] (lit "### Segmenten" :: rows).

End Planner.

Arguments segment F : clear implicits.

(** ** The handler and the host *)

Section Handler.

Context {F : Type} `{Number F}.

(** Values that travel through the host's dictionaries. *)
#[local] Set Warnings "-register-all".
Inductive value :=
| VNone
| VStr (s : str)
| VInt (z : Z)
| VFloat (x : F)
| VList (l : list value)
| VDict (d : gmap string value).

(** What the handler hands back for the queue component. *)
Inductive queue_output :=
| NoChange                        (* gr.update() *)
| QueueData (v : value).

Inductive response :=
| Summary (md : str)
| SummaryAndQueue (md : str) (q : queue_output).

(** The part of the host that the handler can change or that records what
    it did: the generation info dictionary returned by [get_gen_info],
    the calls of [add_video_task] in the order they were made, and the
    warnings raised with [gr.Warning]. *)
Record world := {
  gen : gmap string value;
  submitted : list (gmap string value);
  warnings : list str;
}.

Definition M (A : Type) : Type := world -> result A * world.

Definition ret {A} (a : A) : M A := fun w => (Ok a, w).

Definition bindM {A B} (c : M A) (k : A -> M B) : M B :=
  fun w =>
    match c w with
    | (Ok a, w') => k a w'
    | (Raise e, w') => (Raise e, w')
    end.

Definition lift {A} (r : result A) : M A := fun w => (r, w).

Notation "'let!' x <- c ; k" := (bindM c (fun x => k))
  (at level 10, x name, c at level 100, k at level 200).
Notation "'exec' c ; k" := (bindM c (fun _ => k))
  (at level 10, c at level 100, k at level 200).

Fixpoint for_each {A} (l : list A) (body : A -> M unit) : M unit :=
  match l with
  | [] => ret tt
  | x :: l' => exec body x; for_each l' body
  end.

Definition get_gen : M (gmap string value) := fun w => (Ok (gen w), w).

Definition put_gen (g : gmap string value) : M unit :=
  fun w => (Ok tt, {| gen := g; submitted := submitted w; warnings := warnings w |}).

(** [gr.Warning(message)]. *)
Definition gr_Warning (message : str) : M unit :=
  fun w => (Ok tt, {| gen := gen w; submitted := submitted w;
                      warnings := warnings w ++ [message] |}).

(** [d.get(k, default)] and [d.get(k)]. *)
Definition dict_get (d : gmap string value) (k : string) (default : value) : value :=
  match d !! k with Some v => v | None => default end.

(** [d.setdefault(k, v)]: the dictionary afterwards. *)
Definition dict_setdefault (d : gmap string value) (k : string) (v : value)
    : gmap string value :=
  match d !! k with Some _ => d | None => <[k := v]> d end.

(** [a + n] for an [int] [n]. *)
Definition add_int (a : value) (n : Z) : result value :=
  match a with
  | VInt z => Ok (VInt (z + n))
  | VFloat x => Ok (VFloat (x + num_of_int n)%num)
  | _ => Raise TypeError
  end.

Definition warning_sign : str := [9888%N; 65039%N; 32%N].

Definition _build_error_response (message : str) (include_queue : bool) : M response :=
  exec gr_Warning message;
  if include_queue then ret (SummaryAndQueue (warning_sign ++ message) NoChange)
  else ret (Summary (warning_sign ++ message)).

Definition msg_prompt : str := lit "Prompt mag niet leeg zijn.".
Definition msg_total : str := lit "Totale duur moet groter dan nul zijn.".
Definition msg_segment : str := lit "Segmentlengte moet groter dan nul zijn.".

Definition _validate_inputs (prompt : str) (total_minutes segment_seconds : F)
    : option str :=
  if is_empty prompt || (length (strip prompt) =? 0)%nat then Some msg_prompt
  else if num_leb total_minutes (num_of_int 0) then Some msg_total
  else if num_leb segment_seconds (num_of_int 0) then Some msg_segment
  else None.

(** Truth value of what [_validate_inputs] returns. *)
Definition truthy (errors : option str) : bool :=
  match errors with
  | Some m => negb (is_empty m)
  | None => false
  end.

(** The globals and components the plugin requests from the host in
    [setup_ui].  [add_video_task] is given by what it does to the
    generation info; [update_queue_data] and [queue_html_container] may be
    missing ([hasattr]). *)
Record host := {
  get_current_model_settings : gmap string value -> option (gmap string value);
  get_base_model_type : value -> value;
  get_computed_fps : value -> value -> value -> value -> value;
  get_model_min_frames_and_step : value -> Z * Z * value;
  add_video_task : gmap string value -> gmap string value -> gmap string value;
  update_queue_data : option (value -> value);
  has_queue_html_container : bool;
  repr_number : F -> str;
}.

(** [self.add_video_task] called with the keyword arguments [kwargs]. *)
Definition call_add_video_task (h : host) (kwargs : gmap string value) : M unit :=
  fun w => (Ok tt, {| gen := add_video_task h kwargs (gen w);
                      submitted := submitted w ++ [kwargs];
                      warnings := warnings w |}).

(** [isinstance(v, (int, float))], with the number as the arithmetic
    takes it. *)
Definition number_of (v : value) : option F :=
  match v with
  | VInt z => Some (num_of_int z)
  | VFloat x => Some x
  | _ => None
  end.

Definition is_none (v : value) : bool :=
  match v with VNone => true | _ => false end.

(** The keyword arguments of one call of [add_video_task]. *)
Definition segment_settings (settings state : gmap string value)
    (model_type model_filename fps : value) (total_segments : Z)
    (segment : segment F) : gmap string value :=
  let plugin_data :=
    VDict {[ "auto_video_composer" :=
      VDict (<["fps" := fps]>
            (<["segment_seconds" := VFloat (seconds segment)]>
            (<["total_segments" := VInt total_segments]>
            (<["segment" := VInt (index segment)]> ∅)))) ]} in
  <["plugin_data" := plugin_data]>
  (<["model_filename" := model_filename]>
  (<["model_type" := model_type]>
  (<["state" := VDict state]>
  (<["video_length" := VInt (frames segment)]>
  (<["prompt" := VStr (prompt segment)]> settings))))).

Definition msg_settings : str :=
  lit "Kon de huidige modelinstellingen niet ophalen.".
Definition msg_base_model : str :=
  lit "Kon de basismodelgegevens niet bepalen. Kies een geldig model en probeer opnieuw.".
Definition msg_fps : str :=
  lit "Kon een geldige FPS-waarde niet bepalen. Controleer de modelinstellingen.".
Definition msg_frames : str :=
  lit "Modelconfiguratie heeft ongeldige frame-waarden. Controleer het geselecteerde model.".

(** The part of [_create_segments] after the plan has been made: fill
    the queue, count, report. *)
Definition enqueue_plan (h : host) (settings state : gmap string value)
    (model_type model_filename fps : value) (segments_plan : list (segment F))
    : M response :=
  let! g <- get_gen;
  exec put_gen (dict_setdefault g "queue" (VList []));
  exec for_each segments_plan (fun segment =>
         call_add_video_task h
           (segment_settings settings state model_type model_filename fps
              (Z.of_nat (length segments_plan)) segment));
  let! g <- get_gen;
  let! n <- lift (add_int (dict_get g "prompts_max" (VInt 0))
                          (Z.of_nat (length segments_plan)));
  exec put_gen (<["prompts_max" := n]> g);
  (* [queue] is the list object stored in the generation info *)
  let! g <- get_gen;
  let queue_update :=
    match update_queue_data h with
    | Some f => f (dict_get g "queue" VNone)
    | None => VNone
    end in
  let summary_md := _render_summary (repr_number h) segments_plan in
  if is_none queue_update then ret (Summary summary_md)
  else ret (SummaryAndQueue summary_md (QueueData queue_update)).

Definition _create_segments (h : host) (state : gmap string value)
    (prompt : str) (total_minutes segment_seconds : F) : M response :=
  let errors := _validate_inputs prompt total_minutes segment_seconds in
  let has_queue_output := has_queue_html_container h in
  if truthy errors then
    _build_error_response (default [] errors) has_queue_output
  else
    match get_current_model_settings h state with
    | None => _build_error_response msg_settings false
    | Some settings =>
        let settings := delete "lset_name" settings in
        let settings := dict_setdefault settings "mode" (VStr []) in
        let model_type := dict_get state "model_type" VNone in
        let model_filename := dict_get state "model_filename" VNone in
        let base_model_type := get_base_model_type h model_type in
        if is_none base_model_type then
          _build_error_response msg_base_model has_queue_output
        else
          let fps :=
            get_computed_fps h
              (dict_get settings "force_fps" (VStr []))
              base_model_type
              (dict_get settings "video_guide" VNone)
              (dict_get settings "video_source" VNone) in
          match number_of fps with
          | None => _build_error_response msg_fps has_queue_output
          | Some fps_number =>
              if num_leb fps_number (num_of_int 0) then
                _build_error_response msg_fps has_queue_output
              else
                let '(min_frames, frame_step, _) :=
                  get_model_min_frames_and_step h base_model_type in
                if (min_frames <=? 0) || (frame_step <=? 0) then
                  _build_error_response msg_frames has_queue_output
                else
                  let! segments_plan <-
                    lift (_build_segments_plan prompt total_minutes
                            segment_seconds fps_number min_frames frame_step);
                  enqueue_plan h settings state model_type model_filename fps
                    segments_plan
          end
    end.

(** ** Auxiliary definitions for the statements *)

(** The settings the handler passes on: the model settings without
    [lset_name] and with a [mode]. *)
Definition job_settings (settings0 : gmap string value) : gmap string value :=
  dict_setdefault (delete "lset_name" settings0) "mode" (VStr []).

(** The frame rate the host computes for these settings. *)
Definition resolved_fps (h : host) (state settings0 : gmap string value)
    : value :=
  get_computed_fps h
    (dict_get (job_settings settings0) "force_fps" (VStr []))
    (get_base_model_type h (dict_get state "model_type" VNone))
    (dict_get (job_settings settings0) "video_guide" VNone)
    (dict_get (job_settings settings0) "video_source" VNone).

(** [isinstance(v, (int, float))] holds and [v <= 0] does not. *)
Definition positive_number (v : value) : Prop :=
  exists x, number_of v = Some x /\ num_leb x (num_of_int 0) = false.

(** The host resolves the model configuration: there are settings, a
    base model type, a frame rate that passes the check and positive
    frame constants. *)
Definition configuration_resolves (h : host) (state settings0 : gmap string value)
    (fps_number : F) (min_frames frame_step : Z) : Prop :=
  get_current_model_settings h state = Some settings0
  /\ is_none (get_base_model_type h (dict_get state "model_type" VNone)) = false
  /\ number_of (resolved_fps h state settings0) = Some fps_number
  /\ num_leb fps_number (num_of_int 0) = false
  /\ (exists extra,
        get_model_min_frames_and_step h
          (get_base_model_type h (dict_get state "model_type" VNone))
        = (min_frames, frame_step, extra))
  /\ 0 < min_frames /\ 0 < frame_step.

(** The keyword arguments of the jobs for a plan. *)
Definition planned_jobs (h : host) (state settings0 : gmap string value)
    (plan : list (segment F)) : list (gmap string value) :=
  List.map
    (segment_settings (job_settings settings0) state
       (dict_get state "model_type" VNone)
       (dict_get state "model_filename" VNone)
       (resolved_fps h state settings0)
       (Z.of_nat (length plan))) plan.

(** The warnings the handler can raise. *)
Definition handler_messages : list str :=
  [msg_prompt; msg_total; msg_segment; msg_settings; msg_base_model;
   msg_fps; msg_frames].

End Handler.

Arguments value F : clear implicits.
Arguments queue_output F : clear implicits.
Arguments response F : clear implicits.
Arguments world F : clear implicits.
Arguments host F : clear implicits.
Arguments M F A : clear implicits.

Section PlannerStatements.

Context {F : Type} `{Number F}.

(** The inputs on which the planner is meant to be called: the numbers
    are greater than zero. *)
Definition valid_inputs (total_minutes segment_seconds fps : F)
    (min_frames frame_step : Z) : Prop :=
  num_ltb (num_of_int 0) total_minutes = true
  /\ num_ltb (num_of_int 0) segment_seconds = true
  /\ num_ltb (num_of_int 0) fps = true
  /\ 0 < min_frames /\ 0 < frame_step.

(** The frame count as the design document words it: the duration times
    [fps] is rounded to the nearest integer, that integer is divided by
    [frame_step] with truncation and multiplied back, and the result is
    held at [min_frames] from below. *)
Definition frames_as_worded (duration fps : F) (min_frames frame_step : Z)
    : result Z :=
  do r <- num_round (duration * fps)%num;
  Ok (Z.max min_frames (r / frame_step * frame_step)).

(** What is left of the total for the last of [segments_count]
    segments. *)
Definition remainder (total_seconds segment_seconds : F) (segments_count : Z) : F :=
  (total_seconds - segment_seconds * num_of_int (segments_count - 1))%num.

(** [sum] of the [seconds] of the entries: from the [int] 0, one addition
    after the other. *)
Definition sum_seconds (plan : list (segment F)) : F :=
  fold_left (fun acc s => (acc + seconds s)%num) plan (num_of_int 0).

(** What the loop of [_build_segments_plan] puts into the entry for
    [idx], in whichever arithmetic. *)
Definition entry_shape (chunks : list str)
    (total_seconds segment_seconds fps : F)
    (min_frames frame_step segments_count : Z)
    (idx : Z) (s : segment F) : Prop :=
  index s = idx + 1
  /\ (exists chunk,
        chunks !! Z.to_nat idx = Some chunk
        /\ prompt s = chunk ++ annotation (idx + 1) segments_count)
  /\ seconds s
     = num_round2
         (segment_duration total_seconds segment_seconds segments_count idx)
  /\ segment_frames
       (segment_duration total_seconds segment_seconds segments_count idx)
       fps min_frames frame_step = Ok (frames s).

End PlannerStatements.

(** The continuity note as the design document words it. *)
Definition annotation_in_english (number segments_count : Z) : str :=
  lit " (Segment " ++ str_of_int number ++ lit "/"
    ++ str_of_int segments_count
    ++ lit ". Keep style, characters and camera consistent).".

(** The characters of a text that are not white space, in their order. *)
Definition nonspace (s : str) : str :=
  List.filter (fun c => negb (isspace c)) s.

(** A text without line break that starts and ends with a character that
    is not white space. *)
Definition clean_line (s : str) : Prop :=
  (exists c, head s = Some c /\ isspace c = false)
  /\ (exists c, last s = Some c /\ isspace c = false)
  /\ Forall (fun c => is_linebreak c = false) s.

(** ** Test data, on floats *)

(** The host of the repository's test of the handler. *)
Definition test_settings : gmap string (value spec_float) :=
  <["force_fps" := VStr []]>
  (<["video_guide" := VNone]> (<["video_source" := VNone]> ∅)).

Definition test_host : host spec_float := {|
  get_current_model_settings := fun _ => Some test_settings;
  get_base_model_type := fun _ => VStr (lit "base-type");
  get_computed_fps := fun _ _ _ _ => VFloat (Binary64.of_int 8);
  get_model_min_frames_and_step := fun _ => (8, 2, VNone);
  add_video_task := fun kwargs g =>
    match g !! "queue" with
    | Some (VList l) => <["queue" := VList (l ++ [VDict kwargs])]> g
    | _ => g
    end;
  update_queue_data := Some (fun queue => VDict {[ "queue" := queue ]});
  has_queue_html_container := true;
  repr_number := fun _ => [];
|}.

(** The same host with an [add_video_task] that leaves the generation
    info alone. *)
Definition quiet_host : host spec_float := {|
  get_current_model_settings := get_current_model_settings test_host;
  get_base_model_type := get_base_model_type test_host;
  get_computed_fps := get_computed_fps test_host;
  get_model_min_frames_and_step := get_model_min_frames_and_step test_host;
  add_video_task := fun _ g => g;
  update_queue_data := update_queue_data test_host;
  has_queue_html_container := has_queue_html_container test_host;
  repr_number := repr_number test_host;
|}.

(** A host that has no model settings and a host that knows no base model
    type. *)
Definition no_settings_host : host spec_float := {|
  get_current_model_settings := fun _ => None;
  get_base_model_type := get_base_model_type test_host;
  get_computed_fps := get_computed_fps test_host;
  get_model_min_frames_and_step := get_model_min_frames_and_step test_host;
  add_video_task := add_video_task test_host;
  update_queue_data := update_queue_data test_host;
  has_queue_html_container := has_queue_html_container test_host;
  repr_number := repr_number test_host;
|}.

Definition no_model_host : host spec_float := {|
  get_current_model_settings := get_current_model_settings test_host;
  get_base_model_type := fun _ => VNone;
  get_computed_fps := get_computed_fps test_host;
  get_model_min_frames_and_step := get_model_min_frames_and_step test_host;
  add_video_task := add_video_task test_host;
  update_queue_data := update_queue_data test_host;
  has_queue_html_container := has_queue_html_container test_host;
  repr_number := repr_number test_host;
|}.

Definition test_state : gmap string (value spec_float) :=
  <["model_type" := VStr (lit "type-a")]>
  (<["model_filename" := VStr (lit "model.safetensors")]> ∅).

Definition test_world : world spec_float :=
  {| gen := {[ "queue" := VList [] ]}; submitted := []; warnings := [] |}.

Definition empty_world : world spec_float :=
  {| gen := ∅; submitted := []; warnings := [] |}.

(** A world whose [prompts_max] is not a number. *)
Definition stale_world : world spec_float :=
  {| gen := <["prompts_max" := VNone]> {[ "queue" := VList [] ]};
     submitted := []; warnings := [] |}.

Definition test_handler_prompt : str :=
  lit "Een lange prompt met twee zinnen. Nog een stukje prompt.".

(** The prompt of the repository's test of the planner. *)
Definition test_prompt : str :=
  lit "Een uitgebreid verhaal dat in delen wordt verteld.".

(** The numbers of the tests: 0.25 and 0.5 minutes, 7 seconds, 8 and 10
    frames per second. *)
Definition quarter_minute : spec_float := Binary64.decimal 25 2.
Definition half_minute : spec_float := Binary64.decimal 5 1.
Definition seven : spec_float := Binary64.of_int 7.

(** The plan for a tenth of a minute in segments of 1.2 seconds at 15
    frames per second, with [min_frames = 1] and [frame_step = 4], as
    computed on floats. *)
Definition binary64_test_plan : list (segment spec_float) :=
  Eval vm_compute in
    match _build_segments_plan test_prompt (Binary64.decimal 1 1)
            (Binary64.decimal 12 1) (Binary64.of_int 15) 1 4 with
    | Ok plan => plan
    | Raise _ => []
    end.

(** The plan of the repository's test of the planner, and the plan of
    its test of the handler. *)
Definition test_plan : list (segment spec_float) :=
  Eval vm_compute in
    match _build_segments_plan test_prompt half_minute seven
            (Binary64.of_int 10) 8 2 with
    | Ok plan => plan
    | Raise _ => []
    end.

Definition test_handler_plan : list (segment spec_float) :=
  Eval vm_compute in
    match _build_segments_plan test_handler_prompt quarter_minute seven
            (Binary64.of_int 8) 8 2 with
    | Ok plan => plan
    | Raise _ => []
    end.

(** * Properties *)

(** ** Numbers *)

Lemma Qltb_true (a b : Q) : Py.Qltb a b = true <-> (a < b)%Q.
Proof.
  unfold Py.Qltb. rewrite negb_true_iff.
  destruct (Qle_bool b a) eqn:E.
  - apply Qle_bool_iff in E. split; [discriminate | intros H; lra].
  - split; [intros _ | reflexivity].
    apply Qnot_le_lt. intros H. apply Qle_bool_iff in H. congruence.
Qed.

Lemma Qltb_false (a b : Q) : Py.Qltb a b = false <-> (b <= a)%Q.
Proof.
  destruct (Py.Qltb a b) eqn:E.
  - apply Qltb_true in E. split; [discriminate | intros H; lra].
  - split; [intros _ | reflexivity].
    apply Qnot_lt_le. intros H. apply Qltb_true in H. congruence.
Qed.

Lemma truediv_ok (a b : Q) : ~ (b == 0)%Q -> Py.truediv a b = Ok (a / b)%Q.
Proof.
  intros H. unfold Py.truediv.
  destruct (Qeq_bool b 0) eqn:E; [|reflexivity].
  apply Qeq_bool_iff in E. contradiction.
Qed.

Lemma inject_Z_sub (x y : Z) : inject_Z (x - y) = (inject_Z x - inject_Z y)%Q.
Proof.
  replace (x - y) with (x + - y) by lia.
  now rewrite inject_Z_plus, inject_Z_opp.
Qed.

Lemma ceil_ge (q : Q) : (q <= inject_Z (Py.ceil q))%Q.
Proof. apply Qle_ceiling. Qed.

Lemma ceil_lt (q : Q) : (inject_Z (Py.ceil q) - 1 < q)%Q.
Proof.
  pose proof (Qceiling_lt q) as H. unfold Py.ceil.
  rewrite inject_Z_sub in H. exact H.
Qed.

(** [round] stays within one half of its argument. *)
Lemma round_near (q : Q) :
  (q - (1 # 2) <= inject_Z (Py.round q) <= q + (1 # 2))%Q.
Proof.
  unfold Py.round.
  pose proof (Qfloor_le q) as Hlo. pose proof (Qlt_floor q) as Hhi.
  rewrite inject_Z_plus in Hhi. change (inject_Z 1) with 1%Q in Hhi.
  destruct (Py.Qltb (q - inject_Z (Qfloor q)) (1 # 2)) eqn:E1.
  { apply Qltb_true in E1. lra. }
  apply Qltb_false in E1.
  destruct (Py.Qltb (1 # 2) (q - inject_Z (Qfloor q))) eqn:E2.
  { apply Qltb_true in E2. rewrite inject_Z_plus.
    change (inject_Z 1) with 1%Q. lra. }
  apply Qltb_false in E2.
  destruct (Z.even (Qfloor q));
    [|rewrite inject_Z_plus; change (inject_Z 1) with 1%Q]; lra.
Qed.

Lemma Qdiv_mul_cancel (a b : Q) : ~ (b == 0)%Q -> (a / b * b == a)%Q.
Proof. intros H. field. exact H. Qed.

Lemma inject_Z_pos (z : Z) : 0 < z -> (0 < inject_Z z)%Q.
Proof. intros H. change 0%Q with (inject_Z 0). now rewrite <- Zlt_Qlt. Qed.

Lemma inject_Z_nonzero (z : Z) : z <> 0 -> ~ (inject_Z z == 0)%Q.
Proof.
  intros Hz H. apply Hz. now apply (proj1 (inject_Z_injective z 0)).
Qed.

(** For [0 < b]: [a / b <= c] exactly when [a <= c * b]. *)
Lemma Qdiv_le_mul (a b c : Q) : (0 < b)%Q -> (a / b <= c)%Q <-> (a <= c * b)%Q.
Proof.
  intros Hb.
  assert (Hx : (a / b * b == a)%Q) by (apply Qdiv_mul_cancel; lra).
  set (x := (a / b)%Q) in *. split; intros H; nra.
Qed.

(** [b * ceil(a / b)] reaches [a]. *)
Lemma ceil_div_mul (a b : Z) :
  0 < b -> a <= Py.ceil (inject_Z a / inject_Z b)%Q * b.
Proof.
  intros Hb. rewrite Zle_Qle, inject_Z_mult.
  apply Qdiv_le_mul; [now apply inject_Z_pos | apply ceil_ge].
Qed.

(** ** Lists and loops *)

Lemma slice_take_drop {A} (l : list A) (c n : Z) :
  slice l c (c + n) = take (Z.to_nat n) (drop (Z.to_nat c) l).
Proof. unfold slice. do 2 f_equal. lia. Qed.

Lemma last_item_ok {A} (l : list A) (x : A) :
  last l = Some x -> last_item l = Ok x.
Proof. intros H. unfold last_item. now rewrite H. Qed.

Lemma range_length (n : Z) : length (range n) = Z.to_nat n.
Proof. unfold range. apply length_seqZ. Qed.

Lemma concat_nonempty_nil {A} (ws : list (list A)) :
  Forall (fun w => w <> []) ws -> concat ws = [] -> ws = [].
Proof.
  intros HF Hc. destruct ws as [|w ws]; [reflexivity|].
  inversion HF as [|? ? Hw _]; subst. simpl in Hc.
  destruct w; [contradiction | discriminate].
Qed.

Section SplitLoop.

Variable sentences : list str.
Variable chunk_size : Z.
Variable l : str.
Hypothesis Hsize : 1 <= chunk_size.
Hypothesis Hlast : last sentences = Some l.

(** The loop of [_split_prompt] started at [cursor]: it appends windows
    that partition the units from [cursor] on, and after them windows
    holding the last unit alone. *)
Lemma split_loop_spec (idxs : list Z) :
  forall (chunks : list str) (cursor : Z),
    0 <= cursor ->
    Z.of_nat (length sentences)
      <= cursor + Z.of_nat (length idxs) * chunk_size ->
    exists (real : list (list str)) (k : nat),
      for_in idxs (split_step sentences chunk_size) (chunks, cursor)
      = Ok (chunks ++ List.map (join space) (real ++ replicate k [l]),
            cursor + Z.of_nat (length idxs) * chunk_size)
      /\ concat real = drop (Z.to_nat cursor) sentences
      /\ Forall (fun w => w <> []) real
      /\ (length real + k = length idxs)%nat.
Proof.
  induction idxs as [|i idxs IH]; intros chunks cursor Hc Hlen.
  - exists [], 0%nat. simpl in *. rewrite app_nil_r.
    split; [do 2 f_equal; lia|].
    split; [symmetry; apply drop_ge; lia|].
    split; [constructor | reflexivity].
  - cbn [for_in]. unfold split_step at 1.
    rewrite slice_take_drop.
    assert (Hlen' : Z.of_nat (length sentences)
              <= cursor + chunk_size + Z.of_nat (length idxs) * chunk_size)
      by (cbn [length] in Hlen; lia).
    destruct (IH (chunks ++ [join space
               (if is_empty (take (Z.to_nat chunk_size)
                               (drop (Z.to_nat cursor) sentences))
                then [l]
                else take (Z.to_nat chunk_size)
                       (drop (Z.to_nat cursor) sentences))])
              (cursor + chunk_size) ltac:(lia) Hlen')
      as (real & k & Hrun & Hcat & Hne & Hn).
    assert (Hdd : drop (Z.to_nat (cursor + chunk_size)) sentences
                  = drop (Z.to_nat chunk_size)
                      (drop (Z.to_nat cursor) sentences)).
    { rewrite drop_drop. f_equal. lia. }
    destruct (drop (Z.to_nat cursor) sentences) as [|x rest] eqn:Hd.
    + rewrite take_nil in *. cbn [is_empty] in *.
      rewrite (last_item_ok _ _ Hlast). cbn [bind].
      rewrite Hrun.
      rewrite Hdd, drop_nil in Hcat.
      apply (concat_nonempty_nil _ Hne) in Hcat. subst real.
      exists [], (S k). cbn [app replicate List.map length] in *.
      rewrite <- app_assoc. cbn [app].
      repeat split; [|constructor|lia].
      do 2 f_equal. lia.
    + destruct (Z.to_nat chunk_size) as [|n] eqn:Hn'; [lia|].
      cbn [take is_empty] in *. cbn [bind]. rewrite Hrun.
      exists ((x :: take n rest) :: real), k.
      cbn [app List.map concat length].
      rewrite <- app_assoc. cbn [app].
      repeat split.
      * do 2 f_equal. lia.
      * rewrite Hcat, Hdd. cbn [drop app]. f_equal. apply take_drop.
      * constructor; [discriminate | exact Hne].
      * lia.
Qed.

End SplitLoop.

Lemma join_app (sep : str) (a b : list str) :
  a <> [] -> b <> [] ->
  join sep (a ++ b) = join sep a ++ sep ++ join sep b.
Proof.
  intros Ha Hb. induction a as [|x a IH]; [contradiction|].
  destruct a as [|y a].
  - destruct b; [contradiction | reflexivity].
  - change (join sep ((x :: y :: a) ++ b))
      with (x ++ sep ++ join sep ((y :: a) ++ b)).
    rewrite IH by discriminate.
    change (join sep (x :: y :: a)) with (x ++ sep ++ join sep (y :: a)).
    now rewrite <- !app_assoc.
Qed.

Lemma concat_replicate_single {A} (k : nat) (x : A) :
  concat (replicate k [x]) = replicate k x.
Proof. induction k as [|k IH]; [reflexivity|]. cbn. now rewrite IH. Qed.

Lemma is_empty_false {A} (l : list A) : l <> [] -> is_empty l = false.
Proof. destruct l; [contradiction | reflexivity]. Qed.

Lemma last_nonempty {A} (l : list A) : l <> [] -> exists x, last l = Some x.
Proof.
  intros H. destruct (last l) as [x|] eqn:E; [now exists x|].
  apply last_None in E. contradiction.
Qed.

(** What [_split_prompt] returns when the prompt has sentence units. *)
Lemma split_prompt_windows (prompt : str) (segments : Z) :
  sentences_of prompt <> [] -> 1 <= segments ->
  exists (real : list (list str)) (k : nat) (l : str),
    _split_prompt prompt segments
    = Ok (List.map (join space) (real ++ replicate k [l]))
    /\ concat real = sentences_of prompt
    /\ Forall (fun w => w <> []) real
    /\ last (sentences_of prompt) = Some l
    /\ (length real + k)%nat = Z.to_nat segments.
Proof.
  intros Hne Hseg. unfold _split_prompt.
  rewrite (is_empty_false _ Hne).
  destruct (last_nonempty _ Hne) as [l Hl].
  rewrite truediv_ok by (apply inject_Z_nonzero; lia).
  cbn [bind].
  set (n := Z.of_nat (length (sentences_of prompt))).
  set (chunk_size := Z.max 1 (Py.ceil (inject_Z n / inject_Z segments))).
  assert (Hsize : 1 <= chunk_size) by (unfold chunk_size; lia).
  assert (Hreach : Z.of_nat (length (sentences_of prompt))
                   <= 0 + Z.of_nat (length (range segments)) * chunk_size).
  { rewrite range_length, Z2Nat.id by lia.
    assert (Hs : 0 < segments) by lia.
    pose proof (ceil_div_mul n segments Hs).
    fold n. unfold chunk_size. nia. }
  destruct (split_loop_spec (sentences_of prompt) chunk_size l
              Hsize Hl (range segments) [] 0 (Z.le_refl 0) Hreach)
    as (real & k & Hrun & Hcat & HF & Hlen).
  rewrite Hrun. cbn [bind fst app].
  exists real, k, l. rewrite range_length in Hlen.
  repeat split; assumption.
Qed.

(** [_split_prompt] returns, and returns as many chunks as asked for. *)
Lemma split_prompt_returns (prompt : str) (segments : Z) :
  1 <= segments ->
  exists chunks,
    _split_prompt prompt segments = Ok chunks
    /\ Z.of_nat (length chunks) = segments.
Proof.
  intros Hseg. destruct (sentences_of prompt) as [|s0 ss] eqn:Hs.
  - exists (replicate (Z.to_nat segments) (strip prompt)).
    unfold _split_prompt. rewrite Hs. cbn [is_empty].
    split; [reflexivity|]. rewrite length_replicate. lia.
  - destruct (split_prompt_windows prompt segments) as
      (real & k & l & Hrun & _ & _ & _ & Hlen); [now rewrite Hs | exact Hseg |].
    eexists. split; [exact Hrun|].
    rewrite length_map, length_app, length_replicate. lia.
Qed.

(** ** The plan *)

Lemma lookup_map {A B} (f : A -> B) (l : list A) (i : nat) :
  List.map f l !! i = f <$> (l !! i).
Proof.
  revert i. induction l as [|x l IH]; intros [|i]; cbn; auto.
Qed.

Lemma item_ok {A} (l : list A) (i : Z) (x : A) :
  l !! Z.to_nat i = Some x -> item l i = Ok x.
Proof. intros H. unfold item. now rewrite H. Qed.

Lemma range_bounds (n : Z) :
  Forall (fun idx => 0 <= idx < n) (range n).
Proof.
  apply Forall_forall. intros idx H. unfold range in H.
  apply elem_of_seqZ in H. lia.
Qed.


(** *** Whatever the arithmetic

    What follows holds in every arithmetic, that of floats included: it
    only needs that the planner returned. *)

Section AnyArithmetic.

Context {F : Type} `{Number F}.

Lemma segment_frames_shape (duration fps : F) (min_frames frame_step f : Z) :
  segment_frames duration fps min_frames frame_step = Ok f ->
  min_frames <= f /\ (f = min_frames \/ (frame_step | f)).
Proof.
  unfold segment_frames.
  destruct (num_truediv _ _) as [q|]; [|discriminate]. cbn [bind].
  destruct (num_round q) as [r|]; [|discriminate]. cbn [bind].
  intros [= <-]. split; [lia|].
  destruct (Z.max_spec min_frames (r * frame_step)) as [[_ ->]|[_ ->]].
  - right. apply Z.divide_factor_r.
  - now left.
Qed.

Variable chunks : list str.
Variables total_seconds segment_seconds fps : F.
Variables min_frames frame_step segments_count : Z.

Lemma plan_loop_shape (idxs : list Z) :
  forall acc plan : list (segment F),
    for_in idxs
      (plan_step chunks total_seconds segment_seconds fps min_frames
         frame_step segments_count) acc = Ok plan ->
    exists new,
      plan = acc ++ new
      /\ Forall2
           (entry_shape chunks total_seconds segment_seconds fps min_frames
              frame_step segments_count) idxs new.
Proof.
  induction idxs as [|idx idxs IH]; intros acc plan Hrun.
  - cbn in Hrun. injection Hrun as <-. exists []. rewrite app_nil_r.
    split; [reflexivity | constructor].
  - cbn [for_in] in Hrun. unfold plan_step at 1 in Hrun.
    destruct (segment_frames _ fps min_frames frame_step) as [f|] eqn:Hf;
      [|discriminate].
    cbn [bind] in Hrun. unfold item in Hrun.
    destruct (chunks !! Z.to_nat idx) as [chunk|] eqn:Hc; [|discriminate].
    cbn [bind] in Hrun.
    destruct (IH _ _ Hrun) as (new & -> & Hnew).
    eexists (_ :: new). rewrite <- app_assoc. split; [reflexivity|].
    constructor; [|exact Hnew].
    unfold entry_shape. cbn [index prompt seconds frames].
    split; [reflexivity|]. split; [now exists chunk|].
    split; [reflexivity | exact Hf].
Qed.

End AnyArithmetic.

(** X11: whenever [_build_segments_plan] returns a plan, in whichever
    arithmetic (that of floats included), the plan has
    [max(1, ceil(total_minutes * 60 / segment_seconds))] entries, and
    entry [i] has the index [i + 1], chunk [i] with its note as prompt,
    and a frame count that is at least [min_frames] and is [min_frames]
    or a multiple of [frame_step]. *)
Lemma build_plan_shape {F : Type} `{Number F} (text : str)
    (total_minutes segment_seconds fps : F) (min_frames frame_step : Z)
    (plan : list (segment F)) :
  _build_segments_plan text total_minutes segment_seconds fps min_frames
    frame_step = Ok plan ->
  exists q c chunks,
    num_truediv (total_minutes * num_of_int 60)%num segment_seconds = Ok q
    /\ num_ceil q = Ok c
    /\ _split_prompt text (Z.max 1 c) = Ok chunks
    /\ Z.of_nat (length plan) = Z.max 1 c
    /\ forall (i : nat) (s : segment F),
         plan !! i = Some s ->
         index s = Z.of_nat i + 1
         /\ (exists chunk,
               chunks !! i = Some chunk
               /\ prompt s
                  = chunk ++ annotation (Z.of_nat i + 1) (Z.max 1 c))
         /\ min_frames <= frames s
         /\ (frames s = min_frames \/ (frame_step | frames s)).
Proof.
  unfold _build_segments_plan. intros Hrun.
  destruct (num_truediv _ segment_seconds) as [q|] eqn:Hq; [|discriminate].
  cbn [bind] in Hrun.
  destruct (num_ceil q) as [c|] eqn:Hc; [|discriminate]. cbn [bind] in Hrun.
  destruct (_split_prompt text (Z.max 1 c)) as [chunks|] eqn:Hsplit;
    [|discriminate].
  cbn [bind] in Hrun.
  apply plan_loop_shape in Hrun as (new & -> & Hnew). cbn [app] in *.
  exists q, c, chunks. repeat (split; [assumption || reflexivity|]).
  split.
  { pose proof (Forall2_length _ _ _ Hnew) as Hlen.
    rewrite range_length in Hlen. lia. }
  intros i s Hi.
  destruct (Forall2_lookup_r _ _ _ _ _ Hnew Hi) as (idx & Hidx & Hs).
  unfold range in Hidx. apply lookup_seqZ in Hidx as [-> _].
  destruct Hs as (Hindex & (chunk & Hchunk & Hprompt) & _ & Hframes).
  rewrite Z.add_0_l in *. rewrite Nat2Z.id in Hchunk.
  split; [exact Hindex|]. split; [now exists chunk|].
  exact (segment_frames_shape _ _ _ _ _ Hframes).
Qed.


Lemma build_plan_shape_witness :
  _build_segments_plan test_prompt (Binary64.decimal 1 1)
    (Binary64.decimal 12 1) (Binary64.of_int 15) 1 4 = Ok binary64_test_plan
  /\ exists q c chunks,
       num_truediv (Binary64.decimal 1 1 * num_of_int 60)%num
         (Binary64.decimal 12 1) = Ok q
       /\ num_ceil q = Ok c
       /\ _split_prompt test_prompt (Z.max 1 c) = Ok chunks
       /\ Z.of_nat (length binary64_test_plan) = Z.max 1 c
       /\ forall (i : nat) (s : segment spec_float),
            binary64_test_plan !! i = Some s ->
            index s = Z.of_nat i + 1
            /\ (exists chunk,
                  chunks !! i = Some chunk
                  /\ prompt s
                     = chunk ++ annotation (Z.of_nat i + 1) (Z.max 1 c))
            /\ 1 <= frames s
            /\ (frames s = 1 \/ (4 | frames s)).
Proof.
  assert (H : _build_segments_plan test_prompt (Binary64.decimal 1 1)
                (Binary64.decimal 12 1) (Binary64.of_int 15) 1 4
              = Ok binary64_test_plan) by (vm_compute; reflexivity).
  split; [exact H|].
  exact (build_plan_shape test_prompt (Binary64.decimal 1 1)
           (Binary64.decimal 12 1) (Binary64.of_int 15) 1 4
           binary64_test_plan H).
Defined.

(** ** The entries of a returned plan *)

Lemma split_prompt_length (text : str) (segments : Z) (chunks : list str) :
  1 <= segments ->
  _split_prompt text segments = Ok chunks ->
  Z.of_nat (length chunks) = segments.
Proof.
  intros Hseg Hrun.
  destruct (split_prompt_returns text segments Hseg) as (chunks' & Hrun' & Hlen).
  rewrite Hrun in Hrun'. now injection Hrun' as <-.
Qed.

Section ReturnedPlan.

Context {F : Type} `{Number F}.

Variable text : str.
Variables total_minutes segment_seconds fps : F.
Variables min_frames frame_step : Z.
Variable plan : list (segment F).

Hypothesis Hrun :
  _build_segments_plan text total_minutes segment_seconds fps min_frames
    frame_step = Ok plan.

(** What a run of the planner that returned has gone through. *)
Lemma plan_entries :
  exists q c chunks,
    num_truediv (total_minutes * num_of_int 60)%num segment_seconds = Ok q
    /\ num_ceil q = Ok c
    /\ Z.of_nat (length plan) = Z.max 1 c
    /\ _split_prompt text (Z.of_nat (length plan)) = Ok chunks
    /\ length chunks = length plan
    /\ forall (i : nat) (s : segment F),
         plan !! i = Some s ->
         entry_shape chunks (total_minutes * num_of_int 60)%num
           segment_seconds fps min_frames frame_step
           (Z.of_nat (length plan)) (Z.of_nat i) s.
Proof.
  unfold _build_segments_plan in Hrun.
  destruct (num_truediv _ segment_seconds) as [q|] eqn:Hq; [|discriminate].
  cbn [bind] in Hrun.
  destruct (num_ceil q) as [c|] eqn:Hc; [|discriminate]. cbn [bind] in Hrun.
  destruct (_split_prompt text (Z.max 1 c)) as [chunks|] eqn:Hsplit;
    [|discriminate].
  cbn [bind] in Hrun.
  apply plan_loop_shape in Hrun as (new & -> & Hnew). cbn [app] in *.
  assert (Hlen : Z.of_nat (length new) = Z.max 1 c).
  { pose proof (Forall2_length _ _ _ Hnew) as Hlen.
    rewrite range_length in Hlen. lia. }
  exists q, c, chunks. rewrite Hlen.
  repeat (split; [assumption || reflexivity|]).
  split.
  { apply split_prompt_length in Hsplit; lia. }
  intros i s Hi.
  destruct (Forall2_lookup_r _ _ _ _ _ Hnew Hi) as (idx & Hidx & Hs).
  unfold range in Hidx. apply lookup_seqZ in Hidx as [-> _].
  now rewrite Z.add_0_l in Hs.
Qed.

Lemma plan_not_empty : 1 <= Z.of_nat (length plan).
Proof. destruct plan_entries as (q & c & chunks & _ & _ & Hlen & _). lia. Qed.

Lemma plan_has_last : exists s, last plan = Some s.
Proof.
  pose proof plan_not_empty as Hn.
  destruct (last plan) as [s|] eqn:E; [now exists s|].
  apply last_None in E. rewrite E in Hn. cbn in Hn. lia.
Qed.

(** The durations: the segment length before the last entry, and for the
    last entry the larger of the segment length and what is left. *)
Lemma plan_entry_seconds (i : nat) (s : segment F) :
  plan !! i = Some s ->
  let n := Z.of_nat (length plan) in
  let rest := remainder (total_minutes * num_of_int 60)%num segment_seconds n in
  (Z.of_nat i < n - 1 ->
   seconds s = num_round2 segment_seconds
   /\ segment_frames segment_seconds fps min_frames frame_step
      = Ok (frames s))
  /\ (Z.of_nat i = n - 1 ->
      seconds s = num_round2 (num_max segment_seconds rest)
      /\ segment_frames (num_max segment_seconds rest) fps min_frames
           frame_step = Ok (frames s)).
Proof.
  intros Hi n rest.
  destruct plan_entries as (q & c & chunks & _ & _ & _ & _ & _ & Hshape).
  destruct (Hshape i s Hi) as (_ & _ & Hsec & Hfr).
  fold n in Hsec, Hfr. unfold segment_duration in Hsec, Hfr.
  split; intros Hlt.
  - apply Z.ltb_lt in Hlt. rewrite Hlt in Hsec, Hfr. now split.
  - assert (Hge : (Z.of_nat i <? n - 1) = false) by (apply Z.ltb_ge; lia).
    rewrite Hge in Hsec, Hfr. now split.
Qed.

End ReturnedPlan.

Lemma num_max_cases {F : Type} `{Number F} (a b : F) :
  (num_max a b = a /\ num_ltb a b = false)
  \/ (num_max a b = b /\ num_ltb a b = true).
Proof. unfold num_max. destruct (num_ltb a b); auto. Qed.

Lemma lookup_take_before {A} (l : list A) (n i : nat) (x : A) :
  take n l !! i = Some x -> (i < n)%nat /\ l !! i = Some x.
Proof.
  intros Hx. destruct (decide (i < n)%nat) as [Hlt|Hge].
  - split; [exact Hlt|]. now rewrite lookup_take_lt in Hx.
  - rewrite lookup_take_ge in Hx by lia. discriminate.
Qed.

Lemma last_lookup_length {A} (l : list A) (x : A) :
  last l = Some x -> l !! (length l - 1)%nat = Some x.
Proof.
  rewrite last_lookup. intros Hx.
  replace (length l - 1)%nat with (Nat.pred (length l)) by lia. exact Hx.
Qed.

(** ** The text splitter *)

(** The example of the repository's test and of the design document. *)
Example split_test :
  _split_prompt (lit "Eerste zin. Tweede zin! Derde zin?") 2
  = Ok [lit "Eerste zin. Tweede zin!"; lit "Derde zin?"].
Proof. vm_compute. reflexivity. Qed.

(** More windows than units: the last unit is repeated. *)
Example split_repeats_last :
  _split_prompt (lit "Een. Twee.") 3
  = Ok [lit "Een."; lit "Twee."; lit "Twee."].
Proof. vm_compute. reflexivity. Qed.

(** Line breaks split as well, and blank pieces are dropped. *)
Example split_on_line_breaks :
  sentences_of (lit "Een" ++ [10%N; 13%N; 32%N] ++ lit "twee.  " ++ [10%N]
                  ++ lit " drie ")
  = [lit "Een"; lit "twee."; lit "drie"].
Proof. vm_compute. reflexivity. Qed.

(** C3: for every prompt (empty or not) and every positive
    [segmentCount], [_split_prompt] raises nothing and returns a list of
    exactly [segmentCount] strings. *)
Theorem split_prompt_total (prompt : str) (segments : Z) :
  1 <= segments ->
  exists chunks,
    _split_prompt prompt segments = Ok chunks
    /\ Z.of_nat (length chunks) = segments.
Proof. apply split_prompt_returns. Qed.

Lemma split_prompt_total_witness :
  1 <= 2
  /\ exists chunks,
       _split_prompt (lit "Eerste zin. Tweede zin! Derde zin?") 2 = Ok chunks
       /\ Z.of_nat (length chunks) = 2.
Proof.
  split; [lia|].
  apply (split_prompt_total (lit "Eerste zin. Tweede zin! Derde zin?") 2).
  lia.
Defined.


(** ** The repository's test of the planner *)

(** [test_build_segments_plan_uses_min_frames_and_segment_metadata], on
    floats. *)
Example test_plan_binary64 :
  _build_segments_plan test_prompt half_minute seven (Binary64.of_int 10) 8 2
  = Ok test_plan
  /\ List.map index test_plan = [1; 2; 3; 4; 5]
  /\ List.map frames test_plan = [70; 70; 70; 70; 70]
  /\ Forall (fun s => seconds s = seven) test_plan.
Proof.
  split; [vm_compute; reflexivity|].
  split; [reflexivity|]. split; [reflexivity|].
  repeat constructor.
Qed.

(** ** Frame counts *)

(** C1, as stated, fails: with [min_frames = 5] and [frame_step = 4] a
    one-second segment at 4 frames per second gets 5 frames, which is not
    a multiple of 4 (4 is the multiple the rounding picks, and the guard
    lifts it to [min_frames]). *)
Lemma frames_multiple_counterexample :
  valid_inputs (Binary64.decimal 1 1) (Binary64.of_int 1) (Binary64.of_int 4)
    5 4
  /\ exists plan,
       _build_segments_plan (lit "x") (Binary64.decimal 1 1)
         (Binary64.of_int 1) (Binary64.of_int 4) 5 4 = Ok plan
       /\ List.map frames plan = [5; 5; 5; 5; 5; 5]
       /\ ~ Forall (fun s => (4 | frames s) /\ 5 <= frames s) plan.
Proof.
  split; [unfold valid_inputs; repeat split; reflexivity|].
  eexists. split; [vm_compute; reflexivity|].
  split; [reflexivity|].
  intros H. inversion H as [|s l [[k Hk] _] _]; subst.
  cbn [frames] in Hk. lia.
Qed.

(** C1, amended: every [frames] of a plan that [_build_segments_plan]
    returns, in whichever arithmetic, is at least [min_frames], and it is
    either [min_frames] itself or a multiple of [frame_step]; so all of
    them are multiples of [frame_step] when [min_frames] is itself such a
    multiple. *)
Theorem frames_at_least_min {F : Type} `{Number F} (text : str)
    (total_minutes segment_seconds fps : F) (min_frames frame_step : Z)
    (plan : list (segment F)) :
  _build_segments_plan text total_minutes segment_seconds fps min_frames
    frame_step = Ok plan ->
  Forall (fun s => min_frames <= frames s
                   /\ (frames s = min_frames \/ (frame_step | frames s)))
    plan
  /\ ((frame_step | min_frames) ->
      Forall (fun s => (frame_step | frames s)) plan).
Proof.
  intros Hrun.
  destruct (plan_entries _ _ _ _ _ _ _ Hrun)
    as (q & c & chunks & _ & _ & _ & _ & _ & Hshape).
  assert (Hall : Forall (fun s => min_frames <= frames s
                   /\ (frames s = min_frames \/ (frame_step | frames s)))
                   plan).
  { apply Forall_lookup. intros i s Hi.
    destruct (Hshape i s Hi) as (_ & _ & _ & Hf).
    exact (segment_frames_shape _ _ _ _ _ Hf). }
  split; [exact Hall|].
  intros Hm. eapply Forall_impl; [exact Hall|].
  intros s [_ [-> | Hd]]; assumption.
Qed.

Lemma frames_at_least_min_witness :
  _build_segments_plan test_prompt half_minute seven (Binary64.of_int 10) 8 2
  = Ok test_plan
  /\ Forall (fun s => 8 <= frames s /\ (frames s = 8 \/ (2 | frames s)))
       test_plan
  /\ ((2 | 8) -> Forall (fun s => (2 | frames s)) test_plan).
Proof.
  assert (H : _build_segments_plan test_prompt half_minute seven
                (Binary64.of_int 10) 8 2 = Ok test_plan)
    by (vm_compute; reflexivity).
  split; [exact H|].
  exact (frames_at_least_min test_prompt half_minute seven
           (Binary64.of_int 10) 8 2 test_plan H).
Defined.

(** C2, as stated, fails: for seven-second segments at one frame per
    second with [frame_step = 4] the code gives 8 frames (7/4 rounds to
    2), while rounding 7 and dividing by 4 with truncation gives 4. *)
Lemma frames_truncation_counterexample :
  valid_inputs half_minute seven (Binary64.of_int 1) 1 4
  /\ exists plan,
       _build_segments_plan test_prompt half_minute seven (Binary64.of_int 1)
         1 4 = Ok plan
       /\ List.map frames plan = [8; 8; 8; 8; 8]
       /\ List.map
            (fun idx =>
               frames_as_worded
                 (segment_duration (half_minute * Binary64.of_int 60)%num
                    seven 5 idx)
                 (Binary64.of_int 1) 1 4)
            (range 5)
          = [Ok 4; Ok 4; Ok 4; Ok 4; Ok 4].
Proof.
  split; [unfold valid_inputs; repeat split; reflexivity|].
  eexists. split; [vm_compute; reflexivity|].
  split; vm_compute; reflexivity.
Qed.

(** C2, amended: in a plan that [_build_segments_plan] returns, in
    whichever arithmetic, the [frames] of segment [i] is
    [max(min_frames, t)], where [t] is [round(q) * frame_step] for the
    quotient [q] of the segment duration times [fps] by [frame_step]: the
    quotient is rounded once, to an integer, and that integer is
    multiplied by [frame_step]; there is no truncating division. *)
Theorem frames_round_the_quotient {F : Type} `{Number F} (text : str)
    (total_minutes segment_seconds fps : F) (min_frames frame_step : Z)
    (plan : list (segment F)) :
  _build_segments_plan text total_minutes segment_seconds fps min_frames
    frame_step = Ok plan ->
  forall (i : nat) (s : segment F),
    plan !! i = Some s ->
    let duration :=
      segment_duration (total_minutes * num_of_int 60)%num segment_seconds
        (Z.of_nat (length plan)) (Z.of_nat i) in
    exists (q : F) (r : Z),
      num_truediv (duration * fps)%num (num_of_int frame_step) = Ok q
      /\ num_round q = Ok r
      /\ frames s = Z.max min_frames (r * frame_step)
      /\ (frame_step | r * frame_step).
Proof.
  intros Hrun i s Hi duration.
  destruct (plan_entries _ _ _ _ _ _ _ Hrun)
    as (q0 & c & chunks & _ & _ & _ & _ & _ & Hshape).
  destruct (Hshape i s Hi) as (_ & _ & _ & Hf).
  fold duration in Hf. unfold segment_frames in Hf.
  destruct (num_truediv _ _) as [q|] eqn:Hq; [|discriminate].
  cbn [bind] in Hf.
  destruct (num_round q) as [r|] eqn:Hr; [|discriminate].
  cbn [bind] in Hf. injection Hf as Hf.
  exists q, r. split; [reflexivity|]. split; [exact Hr|].
  split; [now symmetry | apply Z.divide_factor_r].
Qed.

Lemma frames_round_the_quotient_witness :
  _build_segments_plan test_prompt half_minute seven (Binary64.of_int 10) 8 2
  = Ok test_plan
  /\ forall (i : nat) (s : segment spec_float),
       test_plan !! i = Some s ->
       let duration :=
         segment_duration (half_minute * num_of_int 60)%num seven
           (Z.of_nat (length test_plan)) (Z.of_nat i) in
       exists (q : spec_float) (r : Z),
         num_truediv (duration * Binary64.of_int 10)%num (num_of_int 2) = Ok q
         /\ num_round q = Ok r
         /\ frames s = Z.max 8 (r * 2)
         /\ (2 | r * 2).
Proof.
  assert (H : _build_segments_plan test_prompt half_minute seven
                (Binary64.of_int 10) 8 2 = Ok test_plan)
    by (vm_compute; reflexivity).
  split; [exact H|].
  exact (frames_round_the_quotient test_prompt half_minute seven
           (Binary64.of_int 10) 8 2 test_plan H).
Defined.

(** ** Number of segments *)

(** C5, as stated, fails: the inputs need only be positive, and for a
    total duration of 1e308 minutes the product [total_minutes * 60] is
    beyond the floats, the quotient is infinite and [math.ceil] raises
    [OverflowError]: no entry is emitted. *)
Lemma plan_overflow_counterexample :
  valid_inputs (Binary64.of_int (10 ^ 308)) seven (Binary64.of_int 8) 8 2
  /\ (Binary64.of_int (10 ^ 308) * Binary64.of_int 60)%num
     = S754_infinity false
  /\ _build_segments_plan test_handler_prompt (Binary64.of_int (10 ^ 308))
       seven (Binary64.of_int 8) 8 2 = Raise OverflowError.
Proof.
  split; [unfold valid_inputs; repeat split; vm_compute; reflexivity|].
  split; vm_compute; reflexivity.
Qed.

(** C5, amended: a plan that [_build_segments_plan] returns, in whichever
    arithmetic, has exactly [max(1, ceil(q))] entries, [q] being the
    quotient [total_minutes * 60 / segment_seconds] as the arithmetic
    gives it, which is at least one; entry [i] carries the index [i + 1]
    and, after chunk [i] of the prompt split into that many chunks, the
    note with [i + 1] and the number of entries.  On floats, a quarter of
    a minute in segments of seven seconds gives three entries, whatever
    the other inputs, and the inputs of the repository's test give a
    plan. *)
Theorem plan_has_segments_count :
  (forall (F : Type) (N : Number F) (text : str)
          (total_minutes segment_seconds fps : F)
          (min_frames frame_step : Z) (plan : list (segment F)),
      _build_segments_plan text total_minutes segment_seconds fps min_frames
        frame_step = Ok plan ->
      exists q c chunks,
        num_truediv (total_minutes * num_of_int 60)%num segment_seconds = Ok q
        /\ num_ceil q = Ok c
        /\ Z.of_nat (length plan) = Z.max 1 c
        /\ 1 <= Z.of_nat (length plan)
        /\ _split_prompt text (Z.of_nat (length plan)) = Ok chunks
        /\ forall (i : nat) (s : segment F),
             plan !! i = Some s ->
             index s = Z.of_nat i + 1
             /\ exists chunk,
                  chunks !! i = Some chunk
                  /\ prompt s
                     = chunk ++ lit " (Segment "
                         ++ str_of_int (Z.of_nat i + 1) ++ lit "/"
                         ++ str_of_int (Z.of_nat (length plan))
                         ++ lit ". Houd stijl, personages en camera gelijkmatig).")
  /\ (forall (text : str) (fps : spec_float) (min_frames frame_step : Z)
             (plan : list (segment spec_float)),
        _build_segments_plan text quarter_minute seven fps min_frames
          frame_step = Ok plan ->
        length plan = 3%nat)
  /\ (exists plan,
        _build_segments_plan test_handler_prompt quarter_minute seven
          (Binary64.of_int 8) 8 2 = Ok plan
        /\ List.map index plan = [1; 2; 3]).
Proof.
  split; [|split].
  - intros F N text total_minutes segment_seconds fps min_frames frame_step
      plan Hrun.
    destruct (plan_entries _ _ _ _ _ _ _ Hrun)
      as (q & c & chunks & Hq & Hc & Hlen & Hsplit & _ & Hshape).
    exists q, c, chunks.
    repeat (split; [assumption || lia|]).
    intros i s Hi.
    destruct (Hshape i s Hi) as (Hindex & (chunk & Hchunk & Hprompt) & _).
    split; [exact Hindex|]. exists chunk.
    rewrite Nat2Z.id in Hchunk. split; [exact Hchunk|].
    rewrite Hprompt. reflexivity.
  - intros text fps min_frames frame_step plan Hrun.
    destruct (plan_entries _ _ _ _ _ _ _ Hrun)
      as (q & c & chunks & Hq & Hc & Hlen & _).
    assert (Hq' : num_truediv (quarter_minute * num_of_int 60)%num seven
                  = Ok (S754_finite false 4825285315039817 (-51)))
      by (vm_compute; reflexivity).
    rewrite Hq' in Hq. injection Hq as <-.
    assert (Hc' : num_ceil (S754_finite false 4825285315039817 (-51)) = Ok 3)
      by (vm_compute; reflexivity).
    rewrite Hc' in Hc. injection Hc as <-. lia.
  - eexists. split; [vm_compute; reflexivity | reflexivity].
Qed.

Lemma plan_has_segments_count_witness :
  _build_segments_plan test_handler_prompt quarter_minute seven
    (Binary64.of_int 8) 8 2 = Ok test_handler_plan
  /\ exists q c chunks,
       num_truediv (quarter_minute * num_of_int 60)%num seven = Ok q
       /\ num_ceil q = Ok c
       /\ Z.of_nat (length test_handler_plan) = Z.max 1 c
       /\ 1 <= Z.of_nat (length test_handler_plan)
       /\ _split_prompt test_handler_prompt
            (Z.of_nat (length test_handler_plan)) = Ok chunks
       /\ forall (i : nat) (s : segment spec_float),
            test_handler_plan !! i = Some s ->
            index s = Z.of_nat i + 1
            /\ exists chunk,
                 chunks !! i = Some chunk
                 /\ prompt s
                    = chunk ++ lit " (Segment "
                        ++ str_of_int (Z.of_nat i + 1) ++ lit "/"
                        ++ str_of_int (Z.of_nat (length test_handler_plan))
                        ++ lit ". Houd stijl, personages en camera gelijkmatig).".
Proof.
  assert (H : _build_segments_plan test_handler_prompt quarter_minute seven
                (Binary64.of_int 8) 8 2 = Ok test_handler_plan)
    by (vm_compute; reflexivity).
  split; [exact H|].
  exact (proj1 plan_has_segments_count spec_float _ test_handler_prompt
           quarter_minute seven (Binary64.of_int 8) 8 2 test_handler_plan H).
Defined.

(** ** Durations *)

(** C9, as stated, fails on floats: for 0.1 minutes in segments of 1.2
    seconds there are 5 segments, and what is left for the last,
    [6.0 - 1.2 * 4], comes out one unit in the last place above 1.2.  The
    last duration is then that remainder, not [segment_seconds], and at
    15 frames per second with [frame_step = 4] the first four entries get
    16 frames (4.5 rounds to 4) while the last gets 20. *)
Lemma last_segment_longer_counterexample :
  valid_inputs (Binary64.decimal 1 1) (Binary64.decimal 12 1)
    (Binary64.of_int 15) 1 4
  /\ Binary64.decimal 12 1 = S754_finite false 5404319552844595 (-52)
  /\ remainder (Binary64.decimal 1 1 * Binary64.of_int 60)%num
       (Binary64.decimal 12 1) 5
     = S754_finite false 5404319552844596 (-52)
  /\ segment_duration
       (Binary64.decimal 1 1 * Binary64.of_int 60)%num
       (Binary64.decimal 12 1) 5 4
     = S754_finite false 5404319552844596 (-52)
  /\ exists plan,
       _build_segments_plan test_prompt (Binary64.decimal 1 1)
         (Binary64.decimal 12 1) (Binary64.of_int 15) 1 4 = Ok plan
       /\ List.map frames plan = [16; 16; 16; 16; 20]
       /\ ~ (exists f, Forall (fun s => frames s = f) plan).
Proof.
  split; [unfold valid_inputs; repeat split; vm_compute; reflexivity|].
  repeat (split; [vm_compute; reflexivity|]).
  eexists. split; [vm_compute; reflexivity|].
  split; [reflexivity|].
  intros [f Hf].
  repeat match goal with
         | H : Forall _ (_ :: _) |- _ => inversion H; clear H; subst
         end.
  cbn [frames] in *. lia.
Qed.

(** C9, amended: in a plan that [_build_segments_plan] returns, in
    whichever arithmetic, the duration of the last segment is
    [segment_seconds] unless what is left for it,
    [total_seconds - segment_seconds * (segments_count - 1)] as the
    arithmetic gives it, is greater than [segment_seconds], and then it is
    what is left; every entry before the last has
    [round(segment_seconds, 2)] as [seconds] and the frame count of a
    segment of [segment_seconds]; and when what is left is not greater
    than [segment_seconds], every entry of the plan has them, so that all
    frame counts are the same. *)
Theorem last_segment_nominal_unless_longer {F : Type} `{Number F} (text : str)
    (total_minutes segment_seconds fps : F) (min_frames frame_step : Z)
    (plan : list (segment F)) :
  _build_segments_plan text total_minutes segment_seconds fps min_frames
    frame_step = Ok plan ->
  let total_seconds := (total_minutes * num_of_int 60)%num in
  let segments_count := Z.of_nat (length plan) in
  let rest := remainder total_seconds segment_seconds segments_count in
  segment_duration total_seconds segment_seconds segments_count
    (segments_count - 1)
  = (if num_ltb segment_seconds rest then rest else segment_seconds)
  /\ Forall (fun s => seconds s = num_round2 segment_seconds
                      /\ segment_frames segment_seconds fps min_frames
                           frame_step = Ok (frames s))
       (take (length plan - 1) plan)
  /\ (num_ltb segment_seconds rest = false ->
      Forall (fun s => seconds s = num_round2 segment_seconds
                       /\ segment_frames segment_seconds fps min_frames
                            frame_step = Ok (frames s)) plan
      /\ exists f, Forall (fun s => frames s = f) plan).
Proof.
  intros Hrun total_seconds segments_count rest.
  pose proof (plan_not_empty _ _ _ _ _ _ _ Hrun) as Hn.
  fold segments_count in Hn.
  assert (Hbefore : forall i s,
            plan !! i = Some s -> Z.of_nat i < segments_count - 1 ->
            seconds s = num_round2 segment_seconds
            /\ segment_frames segment_seconds fps min_frames frame_step
               = Ok (frames s)).
  { intros i s Hi Hlt.
    exact (proj1 (plan_entry_seconds _ _ _ _ _ _ _ Hrun i s Hi) Hlt). }
  split; [|split].
  - unfold segment_duration.
    rewrite (proj2 (Z.ltb_ge _ _)) by lia. reflexivity.
  - apply Forall_lookup. intros i s Hi.
    apply lookup_take_before in Hi as [Hlt Hi].
    apply (Hbefore i s Hi). unfold segments_count. lia.
  - intros Hle.
    assert (Hall : Forall (fun s => seconds s = num_round2 segment_seconds
                       /\ segment_frames segment_seconds fps min_frames
                            frame_step = Ok (frames s)) plan).
    { apply Forall_lookup. intros i s Hi.
      pose proof (lookup_lt_Some _ _ _ Hi) as Hlt.
      destruct (decide (Z.of_nat i < segments_count - 1)) as [Hb|Hb];
        [now apply (Hbefore i s)|].
      assert (Hlast : Z.of_nat i = segments_count - 1)
        by (unfold segments_count in *; lia).
      pose proof (proj2 (plan_entry_seconds _ _ _ _ _ _ _ Hrun i s Hi) Hlast)
        as Hs.
      cbv zeta in Hs. fold total_seconds segments_count rest in Hs.
      unfold num_max in Hs. now rewrite Hle in Hs. }
    split; [exact Hall|].
    destruct (plan_has_last _ _ _ _ _ _ _ Hrun) as [s0 Hs0].
    exists (frames s0). apply last_Some_elem_of in Hs0.
    rewrite Forall_forall in Hall. destruct (Hall s0 Hs0) as [_ Hf0].
    apply Forall_forall. intros s Hs. destruct (Hall s Hs) as [_ Hf].
    rewrite Hf0 in Hf. now injection Hf as <-.
Qed.

Lemma last_segment_nominal_unless_longer_witness :
  _build_segments_plan test_prompt (Binary64.decimal 1 1)
    (Binary64.decimal 12 1) (Binary64.of_int 15) 1 4 = Ok binary64_test_plan
  /\ (let total_seconds := (Binary64.decimal 1 1 * num_of_int 60)%num in
      let segments_count := Z.of_nat (length binary64_test_plan) in
      let rest :=
        remainder total_seconds (Binary64.decimal 12 1) segments_count in
      segment_duration total_seconds (Binary64.decimal 12 1) segments_count
        (segments_count - 1)
      = (if num_ltb (Binary64.decimal 12 1) rest then rest
         else Binary64.decimal 12 1)
      /\ Forall (fun s => seconds s = num_round2 (Binary64.decimal 12 1)
                          /\ segment_frames (Binary64.decimal 12 1)
                               (Binary64.of_int 15) 1 4 = Ok (frames s))
           (take (length binary64_test_plan - 1) binary64_test_plan)
      /\ (num_ltb (Binary64.decimal 12 1) rest = false ->
          Forall (fun s => seconds s = num_round2 (Binary64.decimal 12 1)
                           /\ segment_frames (Binary64.decimal 12 1)
                                (Binary64.of_int 15) 1 4 = Ok (frames s))
            binary64_test_plan
          /\ exists f, Forall (fun s => frames s = f) binary64_test_plan)).
Proof.
  assert (H : _build_segments_plan test_prompt (Binary64.decimal 1 1)
                (Binary64.decimal 12 1) (Binary64.of_int 15) 1 4
              = Ok binary64_test_plan) by (vm_compute; reflexivity).
  split; [exact H|].
  exact (last_segment_nominal_unless_longer test_prompt
           (Binary64.decimal 1 1) (Binary64.decimal 12 1)
           (Binary64.of_int 15) 1 4 binary64_test_plan H).
Defined.

(** C6, as stated, fails: [seconds] is the duration rounded to two
    decimals.  For 0.3501 minutes in segments of 7.00390625 seconds there
    are three segments of that length, each with [seconds = 7.0]: the
    last one is below [segment_seconds], the ones before it differ from
    [segment_seconds], and the three sum to 21.0, below the total of
    21.006 seconds. *)
Lemma seconds_below_nominal_counterexample :
  valid_inputs (Binary64.decimal 3501 4) (Binary64.decimal 700390625 8)
    (Binary64.of_int 1) 1 1
  /\ exists plan last_entry,
       _build_segments_plan (lit "x") (Binary64.decimal 3501 4)
         (Binary64.decimal 700390625 8) (Binary64.of_int 1) 1 1 = Ok plan
       /\ List.map seconds plan = [seven; seven; seven]
       /\ last plan = Some last_entry
       /\ SFltb (seconds last_entry) (Binary64.decimal 700390625 8) = true
       /\ sum_seconds plan = Binary64.of_int 21
       /\ SFltb (sum_seconds plan)
            (Binary64.decimal 3501 4 * Binary64.of_int 60)%num = true.
Proof.
  split; [unfold valid_inputs; repeat split; vm_compute; reflexivity|].
  eexists _, _. split; [vm_compute; reflexivity|].
  repeat split; vm_compute; reflexivity.
Qed.

(** C6, amended: in a plan that [_build_segments_plan] returns, in
    whichever arithmetic, the [seconds] of every entry before the last is
    [round(segment_seconds, 2)], and the [seconds] of the last entry is
    [round(d, 2)], where the duration [d] of the last segment is
    [segment_seconds] or, when that is greater, what is left of the total,
    [total_seconds - segment_seconds * (segments_count - 1)]; nothing
    holds of the sums. *)
Theorem seconds_are_rounded_durations {F : Type} `{Number F} (text : str)
    (total_minutes segment_seconds fps : F) (min_frames frame_step : Z)
    (plan : list (segment F)) :
  _build_segments_plan text total_minutes segment_seconds fps min_frames
    frame_step = Ok plan ->
  let rest :=
    remainder (total_minutes * num_of_int 60)%num segment_seconds
      (Z.of_nat (length plan)) in
  exists (last_entry : segment F) (d : F),
    last plan = Some last_entry
    /\ seconds last_entry = num_round2 d
    /\ ((d = segment_seconds /\ num_ltb segment_seconds rest = false)
        \/ (d = rest /\ num_ltb segment_seconds rest = true))
    /\ Forall (fun s => seconds s = num_round2 segment_seconds)
         (take (length plan - 1) plan).
Proof.
  intros Hrun rest.
  pose proof (plan_not_empty _ _ _ _ _ _ _ Hrun) as Hn.
  destruct (plan_has_last _ _ _ _ _ _ _ Hrun) as [e He].
  exists e, (num_max segment_seconds rest).
  split; [exact He|]. split; [|split].
  - apply last_lookup_length in He.
    apply (plan_entry_seconds _ _ _ _ _ _ _ Hrun _ _ He). lia.
  - apply num_max_cases.
  - apply Forall_lookup. intros i s Hi.
    apply lookup_take_before in Hi as [Hlt Hi].
    apply (plan_entry_seconds _ _ _ _ _ _ _ Hrun _ _ Hi). lia.
Qed.

Lemma seconds_are_rounded_durations_witness :
  _build_segments_plan test_prompt (Binary64.decimal 1 1)
    (Binary64.decimal 12 1) (Binary64.of_int 15) 1 4 = Ok binary64_test_plan
  /\ (let rest :=
        remainder (Binary64.decimal 1 1 * num_of_int 60)%num
          (Binary64.decimal 12 1) (Z.of_nat (length binary64_test_plan)) in
      exists (last_entry : segment spec_float) (d : spec_float),
        last binary64_test_plan = Some last_entry
        /\ seconds last_entry = num_round2 d
        /\ ((d = Binary64.decimal 12 1
             /\ num_ltb (Binary64.decimal 12 1) rest = false)
            \/ (d = rest /\ num_ltb (Binary64.decimal 12 1) rest = true))
        /\ Forall (fun s => seconds s = num_round2 (Binary64.decimal 12 1))
             (take (length binary64_test_plan - 1) binary64_test_plan)).
Proof.
  assert (H : _build_segments_plan test_prompt (Binary64.decimal 1 1)
                (Binary64.decimal 12 1) (Binary64.of_int 15) 1 4
              = Ok binary64_test_plan) by (vm_compute; reflexivity).
  split; [exact H|].
  exact (seconds_are_rounded_durations test_prompt (Binary64.decimal 1 1)
           (Binary64.decimal 12 1) (Binary64.of_int 15) 1 4
           binary64_test_plan H).
Defined.

(** ** Annotated prompts *)

(** C7, as stated, fails: the note is written in Dutch in the code, not
    in the English of the design document. *)
Lemma english_annotation_counterexample :
  exists chunks chunk s,
    _build_segments_plan test_prompt half_minute seven (Binary64.of_int 10)
      8 2 = Ok test_plan
    /\ _split_prompt test_prompt 5 = Ok chunks
    /\ chunks !! 0%nat = Some chunk
    /\ test_plan !! 0%nat = Some s
    /\ prompt s <> chunk ++ annotation_in_english 1 5.
Proof.
  eexists _, _, _. split; [vm_compute; reflexivity|].
  split; [vm_compute; reflexivity|].
  split; [reflexivity|]. split; [reflexivity|].
  vm_compute. discriminate.
Qed.

(** C7, amended: in a plan that [_build_segments_plan] returns, in
    whichever arithmetic, the prompt of entry [i] is chunk [i] of
    [_split_prompt], asked for as many chunks as the plan has entries,
    followed by
    [" (Segment <i+1>/<number of entries>. Houd stijl, personages en camera gelijkmatig)."],
    the same note after every chunk. *)
Theorem prompts_are_annotated {F : Type} `{Number F} (text : str)
    (total_minutes segment_seconds fps : F) (min_frames frame_step : Z)
    (plan : list (segment F)) :
  _build_segments_plan text total_minutes segment_seconds fps min_frames
    frame_step = Ok plan ->
  exists chunks,
    _split_prompt text (Z.of_nat (length plan)) = Ok chunks
    /\ length chunks = length plan
    /\ forall (i : nat) (s : segment F),
         plan !! i = Some s ->
         exists chunk,
           chunks !! i = Some chunk
           /\ prompt s
              = chunk ++ lit " (Segment " ++ str_of_int (Z.of_nat i + 1)
                  ++ lit "/" ++ str_of_int (Z.of_nat (length plan))
                  ++ lit ". Houd stijl, personages en camera gelijkmatig).".
Proof.
  intros Hrun.
  destruct (plan_entries _ _ _ _ _ _ _ Hrun)
    as (q & c & chunks & _ & _ & _ & Hsplit & Hlen & Hshape).
  exists chunks. split; [exact Hsplit|]. split; [exact Hlen|].
  intros i s Hi.
  destruct (Hshape i s Hi) as (_ & (chunk & Hchunk & Hprompt) & _).
  exists chunk. rewrite Nat2Z.id in Hchunk. split; [exact Hchunk|].
  rewrite Hprompt. reflexivity.
Qed.

Lemma prompts_are_annotated_witness :
  _build_segments_plan test_prompt half_minute seven (Binary64.of_int 10) 8 2
  = Ok test_plan
  /\ exists chunks,
       _split_prompt test_prompt (Z.of_nat (length test_plan)) = Ok chunks
       /\ length chunks = length test_plan
       /\ forall (i : nat) (s : segment spec_float),
            test_plan !! i = Some s ->
            exists chunk,
              chunks !! i = Some chunk
              /\ prompt s
                 = chunk ++ lit " (Segment " ++ str_of_int (Z.of_nat i + 1)
                     ++ lit "/" ++ str_of_int (Z.of_nat (length test_plan))
                     ++ lit ". Houd stijl, personages en camera gelijkmatig).".
Proof.
  assert (H : _build_segments_plan test_prompt half_minute seven
                (Binary64.of_int 10) 8 2 = Ok test_plan)
    by (vm_compute; reflexivity).
  split; [exact H|].
  exact (prompts_are_annotated test_prompt half_minute seven
           (Binary64.of_int 10) 8 2 test_plan H).
Defined.

(** * Further properties of the code *)

(** ** White space and [strip] *)

Lemma linebreak_is_space (c : char) : is_linebreak c = true -> isspace c = true.
Proof.
  unfold is_linebreak, isspace. intros H.
  apply orb_true_iff in H as [H|H]; apply N.eqb_eq in H; subst; reflexivity.
Qed.

Lemma nonspace_app (a b : str) : nonspace (a ++ b) = nonspace a ++ nonspace b.
Proof. apply List.filter_app. Qed.

Lemma nonspace_lstrip (s : str) : nonspace (lstrip s) = nonspace s.
Proof.
  induction s as [|c s IH]; [reflexivity|].
  cbn [lstrip]. destruct (isspace c) eqn:E; [|reflexivity].
  rewrite IH. unfold nonspace. cbn [List.filter]. now rewrite E.
Qed.

Lemma nonspace_strip (s : str) : nonspace (strip s) = nonspace s.
Proof.
  unfold strip, nonspace. rewrite List.filter_rev.
  fold (nonspace (lstrip (rev (lstrip s)))). rewrite nonspace_lstrip.
  unfold nonspace. rewrite List.filter_rev, rev_involutive.
  apply nonspace_lstrip.
Qed.

Lemma lstrip_nil_iff (s : str) : lstrip s = [] <-> nonspace s = [].
Proof.
  induction s as [|c s IH]; [easy|].
  unfold nonspace in *. cbn [lstrip List.filter].
  destruct (isspace c); cbn [negb]; [exact IH | easy].
Qed.

(** [strip] leaves nothing exactly when the text is all white space. *)
Lemma strip_nil_iff (s : str) : strip s = [] <-> nonspace s = [].
Proof.
  rewrite <- (nonspace_strip s). split.
  - intros ->. reflexivity.
  - intros H. destruct (strip s) as [|c r] eqn:E; [reflexivity|].
    exfalso. unfold strip in E.
    apply (f_equal (@rev char)) in E. rewrite rev_involutive in E.
    (* the first character left by [lstrip] is not white space *)
    assert (Hhead : forall t c' r', lstrip t = c' :: r' -> isspace c' = false).
    { induction t as [|x t IHt]; intros c' r' Ht; [discriminate|].
      cbn [lstrip] in Ht. destruct (isspace x) eqn:Ex; [eauto|].
      now injection Ht as <- _. }
    cbn [rev] in E.
    destruct (rev r ++ [c]) as [|c' r'] eqn:E'; [now destruct (rev r)|].
    pose proof (Hhead _ _ _ E) as Hc'.
    assert (Hin : In c' (c :: r)).
    { apply in_rev. cbn [rev]. rewrite E'. now left. }
    unfold nonspace in H.
    assert (Hf : In c' (List.filter (fun c => negb (isspace c)) (c :: r))).
    { apply filter_In. split; [exact Hin | now rewrite Hc']. }
    rewrite H in Hf. contradiction.
Qed.

Lemma lstrip_head (s : str) (c : char) (r : str) :
  lstrip s = c :: r -> isspace c = false.
Proof.
  induction s as [|x s IH]; intros Hs; [discriminate|].
  cbn [lstrip] in Hs. destruct (isspace x) eqn:Ex; [auto|].
  now injection Hs as <- _.
Qed.

Lemma lstrip_split (s : str) :
  exists pre, s = pre ++ lstrip s /\ Forall (fun c => isspace c = true) pre.
Proof.
  induction s as [|x s (pre & Hs & Hpre)]; [now exists []|].
  cbn [lstrip]. destruct (isspace x) eqn:Ex.
  - exists (x :: pre). split; [cbn; now f_equal | now constructor].
  - now exists [].
Qed.

(** [strip] takes white space, and nothing else, from both ends. *)
Lemma strip_split (s : str) :
  exists pre post,
    s = pre ++ strip s ++ post
    /\ Forall (fun c => isspace c = true) pre
    /\ Forall (fun c => isspace c = true) post.
Proof.
  destruct (lstrip_split s) as (pre & Hs & Hpre).
  destruct (lstrip_split (rev (lstrip s))) as (pre2 & Hr & Hpre2).
  exists pre, (rev pre2). split; [|split; [exact Hpre | now apply Forall_rev]].
  unfold strip. rewrite <- rev_app_distr, <- Hr, rev_involutive. exact Hs.
Qed.

Lemma strip_ends (s : str) :
  strip s <> [] ->
  (exists c, head (strip s) = Some c /\ isspace c = false)
  /\ (exists c, last (strip s) = Some c /\ isspace c = false).
Proof.
  intros Hne.
  destruct (lstrip_split (rev (lstrip s))) as (pre2 & Hr & _).
  unfold strip in *.
  destruct (lstrip (rev (lstrip s))) as [|c r] eqn:Eb; [contradiction|].
  split.
  - apply (f_equal (@rev char)) in Hr.
    rewrite rev_involutive, rev_app_distr in Hr.
    destruct (rev (c :: r)) as [|c' r'] eqn:Er; [contradiction|].
    exists c'. split; [reflexivity|].
    cbn [app] in Hr. exact (lstrip_head _ _ _ Hr).
  - exists c. split; [|exact (lstrip_head _ _ _ Eb)].
    cbn [rev]. apply last_snoc.
Qed.

(** ** The sentence units *)

Lemma re_split_go_nonspace (s : str) :
  forall (st : scan) (cur : str),
    (st = InBreak \/ st = InSpace -> cur = []) ->
    nonspace (concat (re_split_go st cur s)) = nonspace (rev cur) ++ nonspace s.
Proof.
  assert (Hsp : forall c r, isspace c = true -> nonspace (c :: r) = nonspace r).
  { intros c r Hc. unfold nonspace. cbn [List.filter]. now rewrite Hc. }
  assert (Htext : forall t (cur : str),
            Text t = InBreak \/ Text t = InSpace -> cur = [])
    by (intros t cur [E|E]; discriminate).
  induction s as [|c rest IH]; intros st cur Hcur.
  - cbn. now rewrite !app_nil_r.
  - destruct st as [t| |]; cbn [re_split_go].
    + destruct (is_linebreak c) eqn:El.
      { cbn [concat]. rewrite nonspace_app, IH by reflexivity.
        now rewrite (Hsp c rest (linebreak_is_space c El)). }
      destruct (t && isspace c) eqn:Es.
      { apply andb_true_iff in Es as [_ Es].
        cbn [concat]. rewrite nonspace_app, IH by reflexivity.
        now rewrite (Hsp c rest Es). }
      rewrite IH by apply Htext.
      cbn [rev]. rewrite nonspace_app, <- app_assoc.
      now rewrite <- nonspace_app.
    + rewrite (Hcur (or_introl eq_refl)).
      change (nonspace (rev [])) with (@nil char). cbn [app].
      destruct (is_linebreak c) eqn:El.
      { rewrite IH by reflexivity.
        now rewrite (Hsp c rest (linebreak_is_space c El)). }
      rewrite IH by apply Htext.
      cbn [rev app]. now rewrite <- nonspace_app.
    + rewrite (Hcur (or_intror eq_refl)).
      change (nonspace (rev [])) with (@nil char). cbn [app].
      destruct (isspace c) eqn:Es.
      { rewrite IH by reflexivity. now rewrite (Hsp c rest Es). }
      rewrite IH by apply Htext.
      cbn [rev app]. now rewrite <- nonspace_app.
Qed.

Lemma re_split_go_no_linebreak (s : str) :
  forall (st : scan) (cur : str),
    Forall (fun c => is_linebreak c = false) cur ->
    Forall (Forall (fun c => is_linebreak c = false)) (re_split_go st cur s).
Proof.
  assert (Hns : forall c, isspace c = false -> is_linebreak c = false).
  { intros c Hc. destruct (is_linebreak c) eqn:E; [|reflexivity].
    apply linebreak_is_space in E. congruence. }
  induction s as [|c rest IH]; intros st cur Hcur.
  - cbn. constructor; [now apply Forall_rev | constructor].
  - destruct st as [t| |]; cbn [re_split_go].
    + destruct (is_linebreak c) eqn:El.
      { constructor; [now apply Forall_rev | now apply IH]. }
      destruct (t && isspace c).
      { constructor; [now apply Forall_rev | now apply IH]. }
      apply IH. now constructor.
    + destruct (is_linebreak c) eqn:El; apply IH; [constructor|].
      now repeat constructor.
    + destruct (isspace c) eqn:Es; apply IH; [constructor|].
      repeat constructor. now apply Hns.
Qed.

Lemma sentences_of_in (prompt u : str) :
  In u (sentences_of prompt) ->
  exists part, In part (re_split prompt) /\ u = strip part /\ u <> [].
Proof.
  unfold sentences_of. intros H.
  apply in_map_iff in H as (part & <- & H).
  apply filter_In in H as [Hin Hne].
  exists part. split; [exact Hin|]. split; [reflexivity|].
  intros E. rewrite E in Hne. discriminate.
Qed.

Lemma sentences_nonspace (text : str) :
  nonspace (concat (sentences_of text)) = nonspace text.
Proof.
  unfold sentences_of.
  assert (H : forall parts : list str,
            nonspace (concat (List.map strip
              (List.filter (fun part => negb (is_empty (strip part))) parts)))
            = nonspace (concat parts)).
  { induction parts as [|part parts IH]; [reflexivity|].
    cbn [List.filter concat]. rewrite nonspace_app, <- IH.
    destruct (strip part) as [|c r] eqn:E; cbn [is_empty negb].
    - apply strip_nil_iff in E. now rewrite E.
    - cbn [List.map concat]. rewrite nonspace_app, E, <- E.
      now rewrite nonspace_strip. }
  rewrite H. unfold re_split.
  rewrite re_split_go_nonspace by reflexivity. reflexivity.
Qed.

Lemma sentences_clean (text : str) :
  Forall clean_line (sentences_of text).
Proof.
  apply Forall_forall. intros u Hu.
  apply list_elem_of_In, sentences_of_in in Hu as (part & Hin & -> & Hne).
  destruct (strip_ends part Hne) as [Hhead Hlast].
  split; [exact Hhead|]. split; [exact Hlast|].
  assert (Hpart : Forall (fun c => is_linebreak c = false) part).
  { pose proof (re_split_go_no_linebreak text (Text false) []
                  ltac:(constructor)) as H.
    rewrite Forall_forall in H. apply H, list_elem_of_In, Hin. }
  destruct (strip_split part) as (pre & post & Hsplit & _ & _).
  rewrite Hsplit in Hpart.
  apply Forall_app in Hpart as [_ Hpart].
  now apply Forall_app in Hpart as [Hpart _].
Qed.

Lemma sentences_nil_iff (text : str) :
  sentences_of text = [] <-> strip text = [].
Proof.
  rewrite strip_nil_iff, <- sentences_nonspace. split.
  - intros ->. reflexivity.
  - intros H. pose proof (sentences_clean text) as Hc.
    destruct (sentences_of text) as [|u us]; [reflexivity|].
    inversion Hc as [|? ? [(c & Hhead & Hns) _] _]; subst.
    destruct u as [|c' u]; [discriminate|]. injection Hhead as ->.
    exfalso. cbn [concat app] in H. unfold nonspace in H.
    cbn [List.filter] in H. rewrite Hns in H. discriminate.
Qed.

(** X1: splitting a prompt into sentence units loses white space only:
    the characters of the units that are not white space are, in order,
    those of the prompt. *)
Theorem sentences_keep_text (text : str) :
  nonspace (concat (sentences_of text)) = nonspace text.
Proof. apply sentences_nonspace. Qed.

(** X2: every sentence unit is a clean line: it has no line break and
    starts and ends with a character that is not white space (so it is
    not empty). *)
Theorem sentences_are_clean (text : str) :
  Forall clean_line (sentences_of text).
Proof. apply sentences_clean. Qed.

(** X3: a prompt has no sentence unit exactly when it is blank (empty or
    all white space); so the branch of [_split_prompt] for a prompt
    without units is taken for blank prompts only. *)
Theorem no_sentences_iff_blank (text : str) :
  sentences_of text = [] <-> strip text = [].
Proof. apply sentences_nil_iff. Qed.

(** ** The chunks *)

Lemma space_no_linebreak : Forall (fun c => is_linebreak c = false) space.
Proof. repeat constructor. Qed.

Lemma join_clean (ws : list str) :
  ws <> [] -> Forall clean_line ws -> clean_line (join space ws).
Proof.
  induction ws as [|x ws IH]; intros Hne HF; [contradiction|].
  inversion HF as [|? ? Hx Hws]; subst.
  destruct ws as [|y ws]; [exact Hx|].
  specialize (IH ltac:(discriminate) Hws).
  change (join space (x :: y :: ws)) with (x ++ space ++ join space (y :: ws)).
  destruct Hx as ((c & Hc & Hcs) & _ & Hxl).
  destruct IH as (_ & (d & Hd & Hds) & Hrl).
  split; [|split].
  - exists c. split; [|exact Hcs]. now destruct x.
  - exists d. split; [|exact Hds]. now rewrite !last_app, Hd.
  - apply Forall_app. split; [exact Hxl|].
    apply Forall_app. split; [apply space_no_linebreak | exact Hrl].
Qed.

Lemma split_prompt_clean (text : str) (segments : Z) :
  strip text <> [] -> 1 <= segments ->
  exists chunks,
    _split_prompt text segments = Ok chunks
    /\ Z.of_nat (length chunks) = segments
    /\ Forall clean_line chunks.
Proof.
  intros Hne Hseg.
  assert (Hs : sentences_of text <> [])
    by (intros E; now apply sentences_nil_iff in E).
  destruct (split_prompt_windows text segments Hs Hseg)
    as (real & k & l & Hrun & Hcat & HF & Hl & Hlen).
  eexists. split; [exact Hrun|]. split.
  { rewrite length_map, length_app, length_replicate. lia. }
  pose proof (sentences_clean text) as Hclean.
  assert (Hreal : Forall (Forall clean_line) real).
  { apply Forall_concat. now rewrite Hcat. }
  assert (Hlast : clean_line l).
  { rewrite Forall_forall in Hclean. apply Hclean.
    now apply last_Some_elem_of. }
  apply Forall_forall. intros chunk Hin.
  apply list_elem_of_In, in_map_iff in Hin as (w & <- & Hw).
  apply in_app_or in Hw as [Hw|Hw].
  - apply join_clean.
    + rewrite Forall_forall in HF. apply HF, list_elem_of_In, Hw.
    + rewrite Forall_forall in Hreal. apply Hreal, list_elem_of_In, Hw.
  - apply list_elem_of_In, elem_of_replicate in Hw as [-> _]. exact Hlast.
Qed.

(** X4: for a prompt that is not blank and a positive number of
    segments, every chunk of [_split_prompt] is a clean line: no chunk is
    empty, none has a line break, none starts or ends with white space. *)
Theorem chunks_are_clean (text : str) (segments : Z) :
  strip text <> [] -> 1 <= segments ->
  exists chunks,
    _split_prompt text segments = Ok chunks
    /\ Z.of_nat (length chunks) = segments
    /\ Forall clean_line chunks.
Proof. apply split_prompt_clean. Qed.

Lemma chunks_are_clean_witness :
  strip (lit "Eerste zin. Tweede zin! Derde zin?") <> []
  /\ 1 <= 2
  /\ exists chunks,
       _split_prompt (lit "Eerste zin. Tweede zin! Derde zin?") 2 = Ok chunks
       /\ Z.of_nat (length chunks) = 2
       /\ Forall clean_line chunks.
Proof.
  assert (H : strip (lit "Eerste zin. Tweede zin! Derde zin?") <> [])
    by (vm_compute; discriminate).
  split; [exact H|]. split; [lia|].
  apply (chunks_are_clean _ 2 H). lia.
Defined.

(** X5: for a blank prompt [_split_prompt] returns as many empty strings
    as segments are asked for (none when that number is not positive),
    and never fails. *)
Theorem split_prompt_blank (text : str) (segments : Z) :
  strip text = [] ->
  _split_prompt text segments = Ok (replicate (Z.to_nat segments) []).
Proof.
  intros Hb. unfold _split_prompt.
  rewrite (proj2 (sentences_nil_iff text) Hb), Hb. reflexivity.
Qed.

Lemma split_prompt_blank_witness :
  strip (lit "  ") = []
  /\ _split_prompt (lit "  ") 3 = Ok (replicate (Z.to_nat 3) []).
Proof.
  assert (H : strip (lit "  ") = []) by reflexivity.
  split; [exact H|]. exact (split_prompt_blank (lit "  ") 3 H).
Defined.

(** X6: for a prompt that is not blank, asking for zero segments raises
    [ZeroDivisionError], and asking for a negative number of segments
    returns the empty list. *)
Theorem split_prompt_without_segments (text : str) (segments : Z) :
  strip text <> [] -> segments <= 0 ->
  _split_prompt text segments
  = if segments =? 0 then Raise ZeroDivisionError else Ok [].
Proof.
  intros Hne Hseg. unfold _split_prompt.
  assert (Hs : sentences_of text <> [])
    by (intros E; now apply sentences_nil_iff in E).
  rewrite (is_empty_false _ Hs).
  destruct (segments =? 0) eqn:E.
  - apply Z.eqb_eq in E. subst. reflexivity.
  - apply Z.eqb_neq in E.
    rewrite truediv_ok by (now apply inject_Z_nonzero). cbn [bind].
    unfold range. replace (seqZ 0 segments) with (@nil Z); [reflexivity|].
    symmetry. apply seqZ_nil. lia.
Qed.

Lemma split_prompt_without_segments_witness :
  strip (lit "Een. Twee.") <> [] /\ 0 <= 0
  /\ _split_prompt (lit "Een. Twee.") 0
     = if 0 =? 0 then Raise ZeroDivisionError else Ok [].
Proof.
  assert (H : strip (lit "Een. Twee.") <> []) by (vm_compute; discriminate).
  split; [exact H|]. split; [lia|].
  apply (split_prompt_without_segments (lit "Een. Twee.") 0 H). lia.
Defined.

Lemma ceil_inject_Z (z : Z) : Py.ceil (inject_Z z) = z.
Proof. apply Qceiling_Z. Qed.

Lemma ceil_comp (q q' : Q) : (q == q')%Q -> Py.ceil q = Py.ceil q'.
Proof. apply Qceiling_comp. Qed.

(** The loop of [_split_prompt] with windows of one unit. *)
Lemma split_loop_singletons (sentences : list str) (l : str) (idxs : list Z) :
  last sentences = Some l ->
  forall (chunks : list str) (c : nat),
    for_in idxs (split_step sentences 1) (chunks, Z.of_nat c)
    = Ok (chunks ++ take (length idxs) (drop c sentences)
            ++ replicate (length idxs - (length sentences - c)) l,
          Z.of_nat c + Z.of_nat (length idxs)).
Proof.
  intros Hlast. induction idxs as [|i idxs IH]; intros chunks c.
  - cbn. rewrite app_nil_r. do 2 f_equal. lia.
  - cbn [for_in]. unfold split_step at 1. rewrite slice_take_drop.
    rewrite Nat2Z.id. change (Z.to_nat 1) with 1%nat.
    pose proof (length_drop sentences c) as Hlen.
    replace (Z.of_nat c + 1) with (Z.of_nat (S c)) by lia.
    assert (Hdd : drop (S c) sentences = drop 1 (drop c sentences))
      by (rewrite drop_drop; f_equal; lia).
    destruct (drop c sentences) as [|x rest] eqn:Hd.
    + cbn [take is_empty]. rewrite (last_item_ok _ _ Hlast). cbn [bind].
      rewrite IH, Hdd. cbn [drop length] in *.
      rewrite take_nil, <- app_assoc. cbn [app].
      replace (length idxs - (length sentences - S c))%nat
        with (length idxs) by lia.
      replace (S (length idxs) - (length sentences - c))%nat
        with (S (length idxs)) by lia.
      cbn [replicate]. do 2 f_equal. lia.
    + cbn [take is_empty bind join]. rewrite IH, Hdd. cbn [drop length] in *.
      rewrite <- app_assoc. cbn [app take].
      replace (S (length idxs) - (length sentences - c))%nat
        with (length idxs - (length sentences - S c))%nat by lia.
      do 2 f_equal. lia.
Qed.

(** X7: when there are at least as many segments as sentence units, the
    chunks are the units themselves, one per segment, followed by the last
    unit once for every segment that is left. *)
Theorem split_prompt_one_unit_each (text : str) (segments : Z) (l : str) :
  last (sentences_of text) = Some l ->
  Z.of_nat (length (sentences_of text)) <= segments ->
  _split_prompt text segments
  = Ok (sentences_of text
          ++ replicate (Z.to_nat segments - length (sentences_of text)) l).
Proof.
  intros Hlast Hlen.
  assert (Hne : sentences_of text <> [])
    by (intros E; rewrite E in Hlast; discriminate).
  assert (Hpos : 1 <= Z.of_nat (length (sentences_of text)))
    by (destruct (sentences_of text); [contradiction | cbn; lia]).
  unfold _split_prompt. rewrite (is_empty_false _ Hne).
  rewrite truediv_ok by (apply inject_Z_nonzero; lia). cbn [bind].
  set (n := Z.of_nat (length (sentences_of text))) in *.
  assert (Hsize : Z.max 1 (Py.ceil (inject_Z n / inject_Z segments)) = 1).
  { assert (Hq : (inject_Z n / inject_Z segments <= inject_Z 1)%Q).
    { apply Qdiv_le_mul; [apply inject_Z_pos; lia|].
      rewrite <- inject_Z_mult, <- Zle_Qle. lia. }
    apply Qceiling_resp_le in Hq. rewrite Qceiling_Z in Hq.
    unfold Py.ceil. lia. }
  rewrite Hsize.
  pose proof (split_loop_singletons (sentences_of text) l (range segments)
                Hlast [] 0%nat) as Hrun.
  change (Z.of_nat 0) with 0 in Hrun. rewrite Hrun.
  cbn [bind fst app drop]. rewrite range_length.
  change (drop 0 (sentences_of text)) with (sentences_of text).
  rewrite take_ge by (unfold n in Hlen; lia).
  rewrite Nat.sub_0_r. reflexivity.
Qed.

Lemma split_prompt_one_unit_each_witness :
  last (sentences_of (lit "Een. Twee.")) = Some (lit "Twee.")
  /\ Z.of_nat (length (sentences_of (lit "Een. Twee."))) <= 3
  /\ _split_prompt (lit "Een. Twee.") 3
     = Ok (sentences_of (lit "Een. Twee.")
             ++ replicate
                  (Z.to_nat 3 - length (sentences_of (lit "Een. Twee.")))
                  (lit "Twee.")).
Proof.
  assert (H1 : last (sentences_of (lit "Een. Twee.")) = Some (lit "Twee."))
    by (vm_compute; reflexivity).
  assert (H2 : Z.of_nat (length (sentences_of (lit "Een. Twee."))) <= 3)
    by (vm_compute; discriminate).
  split; [exact H1|]. split; [exact H2|].
  exact (split_prompt_one_unit_each (lit "Een. Twee.") 3 (lit "Twee.") H1 H2).
Defined.

(** The loop of [_split_prompt] when the units that are left fill the
    windows that are left. *)
Lemma split_loop_even (sentences : list str) (size : nat) (idxs : list Z) :
  (1 <= size)%nat ->
  forall (chunks : list str) (c : nat),
    length (drop c sentences) = (length idxs * size)%nat ->
    exists ws : list (list str),
      for_in idxs (split_step sentences (Z.of_nat size)) (chunks, Z.of_nat c)
      = Ok (chunks ++ List.map (join space) ws,
            Z.of_nat c + Z.of_nat (length idxs * size))
      /\ concat ws = drop c sentences
      /\ Forall (fun w => length w = size) ws
      /\ length ws = length idxs.
Proof.
  intros Hsize. induction idxs as [|i idxs IH]; intros chunks c Hlen.
  - exists []. cbn in *. rewrite app_nil_r.
    split; [do 2 f_equal; lia|].
    split; [now destruct (drop c sentences) | split; [constructor|reflexivity]].
  - cbn [for_in]. unfold split_step at 1. rewrite slice_take_drop.
    rewrite !Nat2Z.id.
    replace (Z.of_nat c + Z.of_nat size) with (Z.of_nat (c + size)) by lia.
    assert (Hdd : drop (c + size) sentences = drop size (drop c sentences))
      by now rewrite drop_drop.
    cbn [length] in Hlen.
    remember (take size (drop c sentences)) as w eqn:Ew.
    assert (Hw : length w = size)
      by (rewrite Ew, length_take; lia).
    destruct w as [|x w']; [cbn in Hw; lia|].
    cbn [is_empty bind].
    destruct (IH (chunks ++ [join space (x :: w')]) (c + size)%nat)
      as (ws & Hrun & Hcat & HF & Hn).
    { rewrite Hdd, length_drop. lia. }
    exists ((x :: w') :: ws). rewrite Hrun.
    rewrite <- app_assoc. cbn [app List.map concat length].
    split; [do 2 f_equal; lia|].
    split; [|split; [now constructor | now rewrite Hn]].
    change ((x :: w') ++ concat ws = drop c sentences).
    rewrite Hcat, Hdd, Ew. apply take_drop.
Qed.

(** X8: when the sentence units divide evenly over the segments, [size]
    units for each, the chunks are the units taken [size] at a time, in
    order: no unit is repeated and every chunk has [size] units.  With one
    segment the chunk is the whole list of units joined by single
    spaces. *)
Theorem split_prompt_even (text : str) (segments : Z) (size : nat) :
  1 <= segments -> (1 <= size)%nat ->
  length (sentences_of text) = (Z.to_nat segments * size)%nat ->
  exists ws : list (list str),
    _split_prompt text segments = Ok (List.map (join space) ws)
    /\ concat ws = sentences_of text
    /\ Forall (fun w => length w = size) ws
    /\ Z.of_nat (length ws) = segments.
Proof.
  intros Hseg Hsize Hlen.
  assert (Hne : sentences_of text <> []).
  { intros E. rewrite E in Hlen. cbn in Hlen. nia. }
  unfold _split_prompt. rewrite (is_empty_false _ Hne).
  rewrite truediv_ok by (apply inject_Z_nonzero; lia). cbn [bind].
  assert (Hcs : Z.max 1 (Py.ceil (inject_Z (Z.of_nat
                  (length (sentences_of text))) / inject_Z segments))
                = Z.of_nat size).
  { rewrite (ceil_comp _ (inject_Z (Z.of_nat size))).
    - rewrite ceil_inject_Z. lia.
    - rewrite Hlen, Nat2Z.inj_mul, Z2Nat.id, inject_Z_mult by lia.
      field. apply inject_Z_nonzero. lia. }
  rewrite Hcs.
  destruct (split_loop_even (sentences_of text) size (range segments) Hsize
              [] 0%nat) as (ws & Hrun & Hcat & HF & Hn).
  { rewrite range_length. exact Hlen. }
  change (Z.of_nat 0) with 0 in Hrun. rewrite Hrun. cbn [bind fst app].
  exists ws. split; [reflexivity|]. split; [exact Hcat|].
  split; [exact HF|]. rewrite Hn, range_length. lia.
Qed.

Lemma split_prompt_even_witness :
  1 <= 2 /\ (1 <= 2)%nat
  /\ length (sentences_of (lit "Een. Twee. Drie! Vier?"))
     = (Z.to_nat 2 * 2)%nat
  /\ exists ws : list (list str),
       _split_prompt (lit "Een. Twee. Drie! Vier?") 2
       = Ok (List.map (join space) ws)
       /\ concat ws = sentences_of (lit "Een. Twee. Drie! Vier?")
       /\ Forall (fun w => length w = 2%nat) ws
       /\ Z.of_nat (length ws) = 2.
Proof.
  assert (H : length (sentences_of (lit "Een. Twee. Drie! Vier?"))
              = (Z.to_nat 2 * 2)%nat) by (vm_compute; reflexivity).
  split; [lia|]. split; [lia|]. split; [exact H|].
  apply (split_prompt_even (lit "Een. Twee. Drie! Vier?") 2 2);
    [lia | lia | exact H].
Defined.

(** ** The text of the chunks *)

Lemma nonspace_join (ws : list str) :
  nonspace (join space ws) = nonspace (concat ws).
Proof.
  induction ws as [|x ws IH]; [reflexivity|].
  destruct ws as [|y ws].
  - cbn [join concat]. now rewrite app_nil_r.
  - change (join space (x :: y :: ws)) with (x ++ space ++ join space (y :: ws)).
    cbn [concat] in *. rewrite !nonspace_app, IH, nonspace_app.
    reflexivity.
Qed.

Lemma nonspace_concat_join (wss : list (list str)) :
  nonspace (concat (List.map (join space) wss))
  = nonspace (concat (concat wss)).
Proof.
  induction wss as [|ws wss IH]; [reflexivity|].
  cbn [List.map concat].
  now rewrite concat_app, !nonspace_app, IH, nonspace_join.
Qed.

(** X15: for a prompt that is not blank and a positive number of
    segments, the chunks keep the whole text of the prompt: apart from
    white space, the characters of the chunks are, in order, those of the
    prompt, followed only by those of the last sentence unit, once for
    each of the [k] trailing chunks that repeat it; and fewer chunks
    repeat it than there are segments. *)
Theorem chunks_keep_text (text : str) (segments : Z) :
  strip text <> [] -> 1 <= segments ->
  exists (chunks : list str) (k : nat) (l : str),
    _split_prompt text segments = Ok chunks
    /\ last (sentences_of text) = Some l
    /\ nonspace (concat chunks)
       = nonspace text ++ nonspace (concat (replicate k l))
    /\ Z.of_nat k < segments.
Proof.
  intros Hne Hseg.
  assert (Hs : sentences_of text <> [])
    by (intros E; now apply sentences_nil_iff in E).
  destruct (split_prompt_windows text segments Hs Hseg)
    as (real & k & l & Hrun & Hcat & HF & Hl & Hlen).
  eexists _, k, l. split; [exact Hrun|]. split; [exact Hl|]. split.
  - rewrite nonspace_concat_join, concat_app, Hcat, concat_replicate_single.
    now rewrite concat_app, nonspace_app, sentences_nonspace.
  - destruct real as [|w real]; [cbn in Hcat; congruence|].
    cbn [length] in Hlen. lia.
Qed.

Lemma chunks_keep_text_witness :
  strip (lit "Een. Twee.") <> [] /\ 1 <= 3
  /\ exists (chunks : list str) (k : nat) (l : str),
       _split_prompt (lit "Een. Twee.") 3 = Ok chunks
       /\ last (sentences_of (lit "Een. Twee.")) = Some l
       /\ nonspace (concat chunks)
          = nonspace (lit "Een. Twee.") ++ nonspace (concat (replicate k l))
       /\ Z.of_nat k < 3.
Proof.
  assert (H : strip (lit "Een. Twee.") <> []) by (vm_compute; discriminate).
  split; [exact H|]. split; [lia|].
  apply (chunks_keep_text (lit "Een. Twee.") 3 H). lia.
Defined.

(** [join] with a space, spelled out: every unit but the last is followed
    by one space. *)
Lemma join_space_spelled (w : list str) :
  w <> [] ->
  join space w
  = concat (zip_with app w (replicate (length w - 1) (lit " ") ++ [[]])).
Proof.
  induction w as [|x w IH]; intros Hne; [contradiction|].
  destruct w as [|y w].
  - cbn. now rewrite !app_nil_r.
  - change (join space (x :: y :: w)) with (x ++ space ++ join space (y :: w)).
    rewrite IH by discriminate.
    cbn [length Nat.sub replicate app zip_with concat].
    rewrite Nat.sub_0_r. now rewrite <- app_assoc.
Qed.

(** C4: when the prompt has at least one sentence unit and
    [segmentCount] is positive, the chunks are written from a list of
    windows [windows ++ replicate k [l]]: the [windows] are non-empty and
    partition the sentence units in their order (nothing dropped, nothing
    twice), and the [k] trailing windows hold the last unit [l] alone.
    Every chunk is the units of its window, in order, each but the last
    followed by one space; so the [k] trailing chunks are [l] itself, and
    the characters of the chunks that are not white space are, in order,
    those of the units followed by those of [k] repeats of [l]. *)
Theorem split_prompt_covers_units (prompt : str) (segments : Z) :
  sentences_of prompt <> [] -> 1 <= segments ->
  exists (chunks : list str) (windows : list (list str)) (k : nat) (l : str),
    _split_prompt prompt segments = Ok chunks
    /\ concat windows = sentences_of prompt
    /\ Forall (fun w => w <> []) windows
    /\ last (sentences_of prompt) = Some l
    /\ (length windows + k)%nat = Z.to_nat segments
    /\ Forall2
         (fun w chunk =>
            chunk
            = concat (zip_with app w
                        (replicate (length w - 1) (lit " ") ++ [[]])))
         (windows ++ replicate k [l]) chunks
    /\ drop (length windows) chunks = replicate k l
    /\ nonspace (concat chunks)
       = nonspace (concat (sentences_of prompt ++ replicate k l)).
Proof.
  intros Hne Hseg.
  destruct (split_prompt_windows prompt segments Hne Hseg)
    as (real & k & l & Hrun & Hcat & HF & Hl & Hlen).
  eexists _, real, k, l. split; [exact Hrun|].
  repeat (split; [assumption|]).
  assert (Hall : Forall (fun w : list str => w <> []) (real ++ replicate k [l])).
  { apply Forall_app. split; [exact HF|].
    apply Forall_forall. intros w Hw.
    apply elem_of_replicate in Hw as [-> _]. discriminate. }
  split; [|split].
  - apply Forall2_fmap_r. apply Forall_Forall2_diag.
    eapply Forall_impl; [exact Hall|].
    intros w Hw. now apply join_space_spelled.
  - change (List.map (join space) (real ++ replicate k [l]))
      with (join space <$> (real ++ replicate k [l])).
    rewrite fmap_app, drop_app_length'; [|now rewrite length_fmap].
    rewrite fmap_replicate. reflexivity.
  - rewrite nonspace_concat_join, concat_app, Hcat, concat_replicate_single.
    reflexivity.
Qed.

Lemma split_prompt_covers_units_witness :
  sentences_of (lit "Eerste zin. Tweede zin! Derde zin?") <> []
  /\ 1 <= 2
  /\ exists (chunks : list str) (windows : list (list str)) (k : nat)
            (l : str),
       _split_prompt (lit "Eerste zin. Tweede zin! Derde zin?") 2 = Ok chunks
       /\ concat windows = sentences_of (lit "Eerste zin. Tweede zin! Derde zin?")
       /\ Forall (fun w => w <> []) windows
       /\ last (sentences_of (lit "Eerste zin. Tweede zin! Derde zin?")) = Some l
       /\ (length windows + k)%nat = Z.to_nat 2
       /\ Forall2
            (fun w chunk =>
               chunk
               = concat (zip_with app w
                           (replicate (length w - 1) (lit " ") ++ [[]])))
            (windows ++ replicate k [l]) chunks
       /\ drop (length windows) chunks = replicate k l
       /\ nonspace (concat chunks)
          = nonspace
              (concat (sentences_of (lit "Eerste zin. Tweede zin! Derde zin?")
                         ++ replicate k l)).
Proof.
  assert (H : sentences_of (lit "Eerste zin. Tweede zin! Derde zin?") <> [])
    by (vm_compute; discriminate).
  split; [exact H|]. split; [lia|].
  apply (split_prompt_covers_units _ 2 H). lia.
Defined.

(** ** The handler *)

Lemma strip_nil_blank (text : str) :
  is_empty text || (length (strip text) =? 0)%nat = true <-> strip text = [].
Proof.
  split.
  - intros H. apply orb_true_iff in H as [H|H].
    + destruct text; [reflexivity | discriminate].
    + apply Nat.eqb_eq in H. now destruct (strip text).
  - intros H. rewrite H. cbn. apply orb_true_r.
Qed.

Section HandlerRuns.

Context {F : Type} `{Number F}.

Implicit Types (h : host F) (w : world F) (v : value F).
Implicit Types (g state settings kwargs : gmap string (value F)).

Lemma error_response_run (m : str) (include_queue : bool) w :
  _build_error_response m include_queue w
  = (Ok (if include_queue
         then SummaryAndQueue (warning_sign ++ m) NoChange
         else Summary (warning_sign ++ m)),
     {| gen := gen w; submitted := submitted w;
        warnings := warnings w ++ [m] |}).
Proof.
  unfold _build_error_response, bindM, gr_Warning.
  now destruct include_queue.
Qed.

(** The generation info after the host has taken the jobs, one by one. *)
Lemma for_each_submit h (f : segment F -> gmap string (value F))
    (plan : list (segment F)) :
  forall w,
    for_each plan (fun segment => call_add_video_task h (f segment)) w
    = (Ok tt,
       {| gen := foldl (fun g kwargs => add_video_task h kwargs g) (gen w)
                   (List.map f plan);
          submitted := submitted w ++ List.map f plan;
          warnings := warnings w |}).
Proof.
  induction plan as [|s plan IH]; intros w.
  - cbn. rewrite app_nil_r. now destruct w.
  - cbn [for_each]. unfold bindM at 1. unfold call_add_video_task at 1.
    rewrite IH. cbn [gen submitted warnings List.map foldl].
    now rewrite <- app_assoc.
Qed.

Lemma foldl_keeps_key h (k : string) (jobs : list (gmap string (value F))) :
  (forall kwargs g, add_video_task h kwargs g !! k = g !! k) ->
  forall g,
    foldl (fun g kwargs => add_video_task h kwargs g) g jobs !! k = g !! k.
Proof.
  intros Hk. induction jobs as [|kw jobs IH]; intros g; [reflexivity|].
  cbn [foldl]. now rewrite IH, Hk.
Qed.

Lemma setdefault_other g (k k' : string) v :
  k <> k' -> dict_setdefault g k v !! k' = g !! k'.
Proof.
  intros Hne. unfold dict_setdefault.
  destruct (g !! k); [reflexivity|]. now apply lookup_insert_ne.
Qed.

Lemma setdefault_lookup g (k : string) v :
  dict_setdefault g k v !! k = Some (default v (g !! k)).
Proof.
  unfold dict_setdefault. destruct (g !! k) eqn:E; cbn [default].
  - exact E.
  - apply lookup_insert_eq.
Qed.

Lemma validate_messages (text : str) (total_minutes segment_seconds : F)
    (m : str) :
  _validate_inputs text total_minutes segment_seconds = Some m ->
  In m [msg_prompt; msg_total; msg_segment].
Proof.
  unfold _validate_inputs.
  destruct (is_empty text || _); [intros [= <-]; now left|].
  destruct (num_leb total_minutes _); [intros [= <-]; right; now left|].
  destruct (num_leb segment_seconds _); [|discriminate].
  intros [= <-]. right; right; now left.
Qed.

Lemma segment_settings_prompt settings state
    (model_type model_filename fps : value F) (n : Z) (s : segment F) :
  segment_settings settings state model_type model_filename fps n s
    !! "prompt" = Some (VStr (prompt s))
  /\ segment_settings settings state model_type model_filename fps n s
       !! "video_length" = Some (VInt (frames s)).
Proof.
  unfold segment_settings. split.
  - do 5 (rewrite lookup_insert_ne by discriminate). apply lookup_insert_eq.
  - do 4 (rewrite lookup_insert_ne by discriminate). apply lookup_insert_eq.
Qed.

(** What [enqueue_plan] does to the world and what it returns. *)
Lemma enqueue_plan_run h settings state
    (model_type model_filename fps : value F) (plan : list (segment F)) w :
  let jobs :=
    List.map (segment_settings settings state model_type model_filename fps
                (Z.of_nat (length plan))) plan in
  let g2 :=
    foldl (fun g kwargs => add_video_task h kwargs g)
      (dict_setdefault (gen w) "queue" (VList [])) jobs in
  enqueue_plan h settings state model_type model_filename fps plan w
  = match add_int (dict_get g2 "prompts_max" (VInt 0))
            (Z.of_nat (length plan)) with
    | Ok n =>
        let g3 := <["prompts_max" := n]> g2 in
        let queue_update :=
          match update_queue_data h with
          | Some f => f (dict_get g3 "queue" VNone)
          | None => VNone
          end in
        (Ok (if is_none queue_update
             then Summary (_render_summary (repr_number h) plan)
             else SummaryAndQueue (_render_summary (repr_number h) plan)
                    (QueueData queue_update)),
         {| gen := g3; submitted := submitted w ++ jobs;
            warnings := warnings w |})
    | Raise e =>
        (Raise e,
         {| gen := g2; submitted := submitted w ++ jobs;
            warnings := warnings w |})
    end.
Proof.
  intros jobs g2. unfold enqueue_plan.
  unfold bindM at 1. unfold get_gen at 1.
  unfold bindM at 1. unfold put_gen at 1.
  unfold bindM at 1. rewrite for_each_submit.
  cbn [gen submitted warnings]. fold jobs. fold g2.
  unfold bindM at 1. unfold get_gen at 1. cbn [gen].
  unfold bindM at 1. unfold lift at 1.
  destruct (add_int _ _) as [n|e]; [|reflexivity].
  unfold bindM at 1. unfold put_gen at 1. cbn [gen submitted warnings].
  unfold bindM at 1. unfold get_gen at 1. cbn [gen].
  cbv zeta.
  match goal with
  | |- context [if is_none ?q then _ else _] => destruct (is_none q)
  end; reflexivity.
Qed.

(** Once validation has passed and the model configuration has been
    resolved, the handler runs the planner and, when that returns, hands
    the plan to [enqueue_plan]; what the planner raises, the handler
    raises. *)
Lemma create_segments_run h state settings0 (text : str)
    (total_minutes segment_seconds fps_number : F)
    (min_frames frame_step : Z) w :
  _validate_inputs text total_minutes segment_seconds = None ->
  configuration_resolves h state settings0 fps_number min_frames frame_step ->
  _create_segments h state text total_minutes segment_seconds w
  = match _build_segments_plan text total_minutes segment_seconds fps_number
            min_frames frame_step with
    | Ok plan =>
        enqueue_plan h (job_settings settings0) state
          (dict_get state "model_type" VNone)
          (dict_get state "model_filename" VNone)
          (resolved_fps h state settings0) plan w
    | Raise e => (Raise e, w)
    end.
Proof.
  intros Hvalid (Hset & Hbase & Hnum & Hfps & [extra Hframes] & Hmin & Hstep).
  unfold _create_segments. rewrite Hvalid. cbn [truthy].
  rewrite Hset. fold (job_settings settings0).
  rewrite Hbase. fold (resolved_fps h state settings0).
  rewrite Hnum, Hfps, Hframes.
  replace (min_frames <=? 0) with false by (symmetry; apply Z.leb_gt; lia).
  replace (frame_step <=? 0) with false by (symmetry; apply Z.leb_gt; lia).
  cbn [orb]. unfold bindM at 1. unfold lift at 1.
  now destruct (_build_segments_plan _ _ _ _ _ _).
Qed.

Lemma add_int_not_number v (n : Z) :
  number_of v = None -> add_int v n = Raise TypeError.
Proof. destruct v; cbn; congruence. Qed.

Lemma job_settings_lookup settings0 (k : string) :
  job_settings settings0 !! k
  = if decide (k = "lset_name") then None
    else if decide (k = "mode")
         then Some (dict_get settings0 "mode" (VStr []))
         else settings0 !! k.
Proof.
  unfold job_settings, dict_setdefault, dict_get.
  rewrite (lookup_delete_ne settings0 "lset_name" "mode") by discriminate.
  destruct (decide (k = "lset_name")) as [->|Hl].
  - destruct (settings0 !! "mode").
    + apply lookup_delete_eq.
    + rewrite lookup_insert_ne by discriminate. apply lookup_delete_eq.
  - destruct (decide (k = "mode")) as [->|Hm].
    + destruct (settings0 !! "mode") eqn:E.
      * now rewrite lookup_delete_ne by discriminate.
      * apply lookup_insert_eq.
    + destruct (settings0 !! "mode").
      * now apply lookup_delete_ne.
      * rewrite lookup_insert_ne by congruence. now apply lookup_delete_ne.
Qed.

(** The entries of the job for plan entry [i]. *)
Lemma planned_job_lookup h state settings0
    (plan : list (segment F)) (i : nat) (s : segment F) :
  plan !! i = Some s ->
  exists kwargs,
    planned_jobs h state settings0 plan !! i = Some kwargs
    /\ kwargs !! "lset_name" = None
    /\ kwargs !! "mode" = Some (dict_get settings0 "mode" (VStr []))
    /\ kwargs !! "state" = Some (VDict state)
    /\ kwargs !! "model_type" = Some (dict_get state "model_type" VNone)
    /\ kwargs !! "model_filename"
       = Some (dict_get state "model_filename" VNone)
    /\ kwargs !! "plugin_data"
       = Some (VDict {[ "auto_video_composer" :=
            VDict (<["fps" := resolved_fps h state settings0]>
                  (<["segment_seconds" := VFloat (seconds s)]>
                  (<["total_segments" := VInt (Z.of_nat (length plan))]>
                  (<["segment" := VInt (index s)]> ∅)))) ]})
    /\ forall k : string,
         k ∉ ["prompt"; "video_length"; "state"; "model_type";
              "model_filename"; "plugin_data"; "lset_name"; "mode"] ->
         kwargs !! k = settings0 !! k.
Proof.
  intros Hi. eexists. split.
  { unfold planned_jobs. rewrite lookup_map, Hi. reflexivity. }
  unfold segment_settings.
  split.
  { do 6 (rewrite lookup_insert_ne by discriminate).
    rewrite job_settings_lookup. reflexivity. }
  split.
  { do 6 (rewrite lookup_insert_ne by discriminate).
    rewrite job_settings_lookup. reflexivity. }
  split.
  { do 3 (rewrite lookup_insert_ne by discriminate). apply lookup_insert_eq. }
  split.
  { do 2 (rewrite lookup_insert_ne by discriminate). apply lookup_insert_eq. }
  split.
  { rewrite lookup_insert_ne by discriminate. apply lookup_insert_eq. }
  split; [apply lookup_insert_eq|].
  intros k Hk.
  repeat (rewrite lookup_insert_ne by (intros <-; apply Hk; set_solver)).
  rewrite job_settings_lookup.
  destruct (decide (k = "lset_name")) as [->|_]; [exfalso; apply Hk; set_solver|].
  destruct (decide (k = "mode")) as [->|_]; [exfalso; apply Hk; set_solver|].
  reflexivity.
Qed.

End HandlerRuns.

Lemma test_host_keeps_prompts_max (kwargs g : gmap string (value spec_float)) :
  add_video_task test_host kwargs g !! "prompts_max" = g !! "prompts_max".
Proof.
  cbn [add_video_task test_host].
  destruct (g !! "queue") as [[]|]; try reflexivity.
  now apply lookup_insert_ne.
Qed.

Lemma test_configuration_resolves :
  configuration_resolves test_host test_state test_settings
    (Binary64.of_int 8) 8 2.
Proof.
  unfold configuration_resolves. repeat split; try reflexivity.
  now exists VNone.
Qed.

Lemma test_inputs_valid :
  _validate_inputs test_handler_prompt quarter_minute seven = None.
Proof. vm_compute. reflexivity. Qed.

Lemma test_handler_plan_run :
  _build_segments_plan test_handler_prompt quarter_minute seven
    (Binary64.of_int 8) 8 2 = Ok test_handler_plan.
Proof. vm_compute. reflexivity. Qed.

(** C8: when the prompt is empty or blank, or the total duration or the
    segment length is not positive ([<= 0] holds of it), [_validate_inputs]
    names the first failing check with its own message (the three
    messages are pairwise different), and [_create_segments] returns the
    warning response at once, whatever the host and whatever the
    arithmetic: the message is raised as a warning, nothing is submitted
    and the generation info is as before. *)
Theorem invalid_input_aborts {F : Type} `{Number F} (h : host F)
    (state : gmap string (value F)) (text : str)
    (total_minutes segment_seconds : F) (w : world F) :
  strip text = []
  \/ num_leb total_minutes (num_of_int 0) = true
  \/ num_leb segment_seconds (num_of_int 0) = true ->
  exists message,
    _validate_inputs text total_minutes segment_seconds = Some message
    /\ (strip text = [] -> message = msg_prompt)
    /\ (strip text <> [] -> num_leb total_minutes (num_of_int 0) = true ->
        message = msg_total)
    /\ (strip text <> [] -> num_leb total_minutes (num_of_int 0) = false ->
        num_leb segment_seconds (num_of_int 0) = true ->
        message = msg_segment)
    /\ (msg_prompt <> msg_total /\ msg_prompt <> msg_segment
        /\ msg_total <> msg_segment)
    /\ _create_segments h state text total_minutes segment_seconds w
       = (Ok (if has_queue_html_container h
              then SummaryAndQueue (warning_sign ++ message) NoChange
              else Summary (warning_sign ++ message)),
          {| gen := gen w;
             submitted := submitted w;
             warnings := warnings w ++ [message] |}).
Proof.
  intros Hbad.
  assert (Hrun : forall m, m <> [] ->
            _validate_inputs text total_minutes segment_seconds = Some m ->
            _create_segments h state text total_minutes segment_seconds w
            = (Ok (if has_queue_html_container h
                   then SummaryAndQueue (warning_sign ++ m) NoChange
                   else Summary (warning_sign ++ m)),
               {| gen := gen w; submitted := submitted w;
                  warnings := warnings w ++ [m] |})).
  { intros m Hm Hv. unfold _create_segments. rewrite Hv.
    cbn [truthy default]. rewrite (is_empty_false _ Hm). cbn [negb].
    apply error_response_run. }
  assert (Hdistinct : msg_prompt <> msg_total /\ msg_prompt <> msg_segment
                      /\ msg_total <> msg_segment)
    by (repeat split; vm_compute; discriminate).
  unfold _validate_inputs in *.
  destruct (is_empty text || (length (strip text) =? 0)%nat) eqn:Eb.
  - apply strip_nil_blank in Eb.
    exists msg_prompt. split; [reflexivity|].
    split; [reflexivity|]. split; [intros Hn; contradiction|].
    split; [intros Hn; contradiction|]. split; [exact Hdistinct|].
    apply Hrun; [discriminate | reflexivity].
  - assert (Hnb : strip text <> []).
    { intros Hs. apply strip_nil_blank in Hs. congruence. }
    destruct (num_leb total_minutes (num_of_int 0)) eqn:Et.
    + exists msg_total. split; [reflexivity|].
      split; [intros Hs; contradiction|]. split; [reflexivity|].
      split; [intros _ Hp; discriminate|]. split; [exact Hdistinct|].
      apply Hrun; [discriminate | reflexivity].
    + destruct (num_leb segment_seconds (num_of_int 0)) eqn:Es.
      * exists msg_segment. split; [reflexivity|].
        split; [intros Hs; contradiction|].
        split; [intros _ Hle; discriminate|]. split; [reflexivity|].
        split; [exact Hdistinct|].
        apply Hrun; [discriminate | reflexivity].
      * exfalso. destruct Hbad as [Hs|[Hle|Hle]];
          [contradiction | discriminate | discriminate].
Qed.

Lemma invalid_input_aborts_witness :
  (strip (lit "   ") = []
   \/ num_leb (Binary64.of_int 1) (num_of_int 0) = true
   \/ num_leb (Binary64.of_int 0) (num_of_int 0) = true)
  /\ exists message,
       _validate_inputs (lit "   ") (Binary64.of_int 1) (Binary64.of_int 0)
       = Some message
       /\ (strip (lit "   ") = [] -> message = msg_prompt)
       /\ (strip (lit "   ") <> [] ->
           num_leb (Binary64.of_int 1) (num_of_int 0) = true ->
           message = msg_total)
       /\ (strip (lit "   ") <> [] ->
           num_leb (Binary64.of_int 1) (num_of_int 0) = false ->
           num_leb (Binary64.of_int 0) (num_of_int 0) = true ->
           message = msg_segment)
       /\ (msg_prompt <> msg_total /\ msg_prompt <> msg_segment
           /\ msg_total <> msg_segment)
       /\ _create_segments test_host test_state (lit "   ")
            (Binary64.of_int 1) (Binary64.of_int 0) test_world
          = (Ok (if has_queue_html_container test_host
                 then SummaryAndQueue (warning_sign ++ message) NoChange
                 else Summary (warning_sign ++ message)),
             {| gen := gen test_world;
                submitted := submitted test_world;
                warnings := warnings test_world ++ [message] |}).
Proof.
  assert (H : strip (lit "   ") = []
              \/ num_leb (Binary64.of_int 1) (num_of_int 0) = true
              \/ num_leb (Binary64.of_int 0) (num_of_int 0) = true)
    by (left; reflexivity).
  split; [exact H|].
  exact (invalid_input_aborts test_host test_state (lit "   ")
           (Binary64.of_int 1) (Binary64.of_int 0) test_world H).
Defined.

(** C10, as stated, fails: a generation info without the key [queue]
    gets that key from the plugin, although the host's [add_video_task]
    touches nothing. *)
Lemma queue_key_added_counterexample :
  exists r w',
    _create_segments quiet_host test_state test_handler_prompt quarter_minute
      seven empty_world = (Ok r, w')
    /\ length (submitted w') = 3%nat
    /\ gen empty_world !! "queue" = None
    /\ gen w' !! "queue" = Some (VList [])
    /\ gen w' !! "prompts_max" = Some (VInt 3).
Proof.
  eexists _, _. split; [vm_compute; reflexivity|].
  repeat split; vm_compute; reflexivity.
Qed.

(** C10, amended: when validation passes, the model configuration
    resolves, the planner returns a plan and [prompts_max] is an integer
    (or absent) that [add_video_task] leaves alone, the handler submits
    exactly one job per plan entry, in plan order, each with the entry's
    prompt under [prompt] and its frame count under [video_length];
    [prompts_max] grows by the number of entries; no warning is raised;
    every key of the generation info other than [prompts_max] and [queue]
    that [add_video_task] leaves alone is as before; and [queue], when
    [add_video_task] leaves it alone, is as before when it was there and
    the empty list when it was absent. *)
Theorem jobs_follow_plan {F : Type} `{Number F} (h : host F)
    (state : gmap string (value F)) (text : str)
    (total_minutes segment_seconds : F) (w : world F)
    (settings0 : gmap string (value F)) (fps_number : F)
    (min_frames frame_step : Z) (extra : value F) (z : Z)
    (plan : list (segment F)) :
  _validate_inputs text total_minutes segment_seconds = None ->
  get_current_model_settings h state = Some settings0 ->
  let settings :=
    dict_setdefault (delete "lset_name" settings0) "mode" (VStr []) in
  let model_type := dict_get state "model_type" VNone in
  let model_filename := dict_get state "model_filename" VNone in
  let base_model_type := get_base_model_type h model_type in
  let fps :=
    get_computed_fps h (dict_get settings "force_fps" (VStr []))
      base_model_type (dict_get settings "video_guide" VNone)
      (dict_get settings "video_source" VNone) in
  is_none base_model_type = false ->
  number_of fps = Some fps_number ->
  num_leb fps_number (num_of_int 0) = false ->
  get_model_min_frames_and_step h base_model_type
  = (min_frames, frame_step, extra) ->
  0 < min_frames ->
  0 < frame_step ->
  _build_segments_plan text total_minutes segment_seconds fps_number
    min_frames frame_step = Ok plan ->
  dict_get (gen w) "prompts_max" (VInt 0) = VInt z ->
  (forall kwargs g,
      add_video_task h kwargs g !! "prompts_max" = g !! "prompts_max") ->
  exists r w',
    _create_segments h state text total_minutes segment_seconds w
    = (Ok r, w')
    /\ submitted w'
       = submitted w
         ++ List.map
              (segment_settings settings state model_type model_filename fps
                 (Z.of_nat (length plan))) plan
    /\ (forall (i : nat) (s : segment F),
          plan !! i = Some s ->
          exists kwargs,
            submitted w' !! (length (submitted w) + i)%nat = Some kwargs
            /\ kwargs !! "prompt" = Some (VStr (prompt s))
            /\ kwargs !! "video_length" = Some (VInt (frames s)))
    /\ gen w' !! "prompts_max" = Some (VInt (z + Z.of_nat (length plan)))
    /\ warnings w' = warnings w
    /\ (forall k : string,
          k <> "prompts_max" -> k <> "queue" ->
          (forall kwargs g, add_video_task h kwargs g !! k = g !! k) ->
          gen w' !! k = gen w !! k)
    /\ ((forall kwargs g, add_video_task h kwargs g !! "queue" = g !! "queue") ->
        gen w' !! "queue" = Some (default (VList []) (gen w !! "queue"))).
Proof.
  intros Hvalid Hsettings settings model_type model_filename base_model_type
    fps Hbase Hnum Hfps Hframes Hmin Hstep Hplan Hmax Hkeep.
  assert (Hres : configuration_resolves h state settings0 fps_number
                   min_frames frame_step).
  { unfold configuration_resolves.
    repeat (split; [assumption|]). split; [now exists extra | now split]. }
  pose proof (create_segments_run h state settings0 text total_minutes
                segment_seconds fps_number min_frames frame_step w
                Hvalid Hres) as Hrun.
  rewrite Hplan, enqueue_plan_run in Hrun. cbv zeta in Hrun.
  fold (planned_jobs h state settings0 plan) in Hrun.
  set (jobs := planned_jobs h state settings0 plan) in *.
  set (g1 := dict_setdefault (gen w) "queue" (VList [])) in *.
  set (g2 := foldl (fun g kwargs => add_video_task h kwargs g) g1 jobs) in *.
  assert (Hg2 : g2 !! "prompts_max" = gen w !! "prompts_max").
  { unfold g2. rewrite (foldl_keeps_key h "prompts_max" jobs Hkeep).
    unfold g1. now apply setdefault_other. }
  assert (Hget : dict_get g2 "prompts_max" (VInt 0) = VInt z).
  { unfold dict_get in *. now rewrite Hg2. }
  rewrite Hget in Hrun. cbn [add_int] in Hrun.
  eexists _, _. split; [exact Hrun|].
  cbn [gen submitted warnings].
  split; [reflexivity|]. split.
  { intros i s Hi.
    exists (segment_settings settings state model_type model_filename fps
              (Z.of_nat (length plan)) s).
    split; [|apply segment_settings_prompt].
    rewrite lookup_app_r by lia.
    replace (length (submitted w) + i - length (submitted w))%nat with i by lia.
    unfold jobs, planned_jobs. now rewrite lookup_map, Hi. }
  split; [apply lookup_insert_eq|]. split; [reflexivity|].
  split.
  - intros k Hk Hq Hkeepk.
    rewrite lookup_insert_ne by congruence.
    unfold g2. rewrite (foldl_keeps_key h k jobs Hkeepk). unfold g1.
    apply setdefault_other. congruence.
  - intros Hkeepq.
    rewrite lookup_insert_ne by discriminate.
    unfold g2. rewrite (foldl_keeps_key h "queue" jobs Hkeepq). unfold g1.
    apply setdefault_lookup.
Qed.

Lemma jobs_follow_plan_witness :
  _validate_inputs test_handler_prompt quarter_minute seven = None
  /\ get_current_model_settings test_host test_state = Some test_settings
  /\ is_none (get_base_model_type test_host (dict_get test_state "model_type" VNone)) = false
  /\ number_of
       (get_computed_fps test_host
            (dict_get (dict_setdefault (delete "lset_name" test_settings) "mode" (VStr [])) "force_fps" (VStr []))
            (get_base_model_type test_host (dict_get test_state "model_type" VNone))
            (dict_get (dict_setdefault (delete "lset_name" test_settings) "mode" (VStr [])) "video_guide" VNone)
            (dict_get (dict_setdefault (delete "lset_name" test_settings) "mode" (VStr [])) "video_source" VNone))
     = Some (Binary64.of_int 8)
  /\ num_leb (Binary64.of_int 8) (num_of_int 0) = false
  /\ get_model_min_frames_and_step test_host
       (get_base_model_type test_host (dict_get test_state "model_type" VNone)) = (8, 2, VNone)
  /\ 0 < 8 /\ 0 < 2
  /\ _build_segments_plan test_handler_prompt quarter_minute seven
       (Binary64.of_int 8) 8 2 = Ok test_handler_plan
  /\ dict_get (gen test_world) "prompts_max" (VInt 0) = VInt 0
  /\ (forall kwargs g,
        add_video_task test_host kwargs g !! "prompts_max"
        = g !! "prompts_max")
  /\ exists r w',
       _create_segments test_host test_state test_handler_prompt
         quarter_minute seven test_world = (Ok r, w')
       /\ submitted w'
          = submitted test_world
            ++ List.map
                 (segment_settings
                    (dict_setdefault (delete "lset_name" test_settings) "mode" (VStr []))
                    test_state
                    (dict_get test_state "model_type" VNone)
                    (dict_get test_state "model_filename" VNone)
                    (get_computed_fps test_host
            (dict_get (dict_setdefault (delete "lset_name" test_settings) "mode" (VStr [])) "force_fps" (VStr []))
            (get_base_model_type test_host (dict_get test_state "model_type" VNone))
            (dict_get (dict_setdefault (delete "lset_name" test_settings) "mode" (VStr [])) "video_guide" VNone)
            (dict_get (dict_setdefault (delete "lset_name" test_settings) "mode" (VStr [])) "video_source" VNone))
                    (Z.of_nat (length test_handler_plan))) test_handler_plan
       /\ (forall (i : nat) (s : segment spec_float),
             test_handler_plan !! i = Some s ->
             exists kwargs,
               submitted w' !! (length (submitted test_world) + i)%nat
               = Some kwargs
               /\ kwargs !! "prompt" = Some (VStr (prompt s))
               /\ kwargs !! "video_length" = Some (VInt (frames s)))
       /\ gen w' !! "prompts_max"
          = Some (VInt (0 + Z.of_nat (length test_handler_plan)))
       /\ warnings w' = warnings test_world
       /\ (forall k : string,
             k <> "prompts_max" -> k <> "queue" ->
             (forall kwargs g, add_video_task test_host kwargs g !! k = g !! k) ->
             gen w' !! k = gen test_world !! k)
       /\ ((forall kwargs g,
              add_video_task test_host kwargs g !! "queue" = g !! "queue") ->
           gen w' !! "queue"
           = Some (default (VList []) (gen test_world !! "queue"))).
Proof.
  assert (H2 : get_current_model_settings test_host test_state
               = Some test_settings) by reflexivity.
  assert (H3 : is_none (get_base_model_type test_host (dict_get test_state "model_type" VNone)) = false)
    by reflexivity.
  assert (H4 : number_of
                 (get_computed_fps test_host
            (dict_get (dict_setdefault (delete "lset_name" test_settings) "mode" (VStr [])) "force_fps" (VStr []))
            (get_base_model_type test_host (dict_get test_state "model_type" VNone))
            (dict_get (dict_setdefault (delete "lset_name" test_settings) "mode" (VStr [])) "video_guide" VNone)
            (dict_get (dict_setdefault (delete "lset_name" test_settings) "mode" (VStr [])) "video_source" VNone))
               = Some (Binary64.of_int 8)) by reflexivity.
  assert (H5 : num_leb (Binary64.of_int 8) (num_of_int 0) = false)
    by (vm_compute; reflexivity).
  assert (H6 : get_model_min_frames_and_step test_host
                 (get_base_model_type test_host (dict_get test_state "model_type" VNone))
               = (8, 2, VNone)) by reflexivity.
  assert (H7 : 0 < 8) by lia.
  assert (H8 : 0 < 2) by lia.
  assert (H9 : dict_get (gen test_world) "prompts_max" (VInt 0) = VInt 0)
    by (vm_compute; reflexivity).
  split; [exact test_inputs_valid|].
  repeat (split; [assumption|]).
  split; [exact test_handler_plan_run|].
  split; [exact H9|].
  split; [exact test_host_keeps_prompts_max|].
  exact (jobs_follow_plan test_host test_state test_handler_prompt
           quarter_minute seven test_world test_settings (Binary64.of_int 8)
           8 2 VNone 0 test_handler_plan
           test_inputs_valid H2 H3 H4 H5 H6 H7 H8 test_handler_plan_run H9
           test_host_keeps_prompts_max).
Defined.

(** ** The planner at its edges *)

(** The loop of [_build_segments_plan] returns as soon as the frame count
    of every index can be computed and every index has a chunk. *)
Lemma plan_loop_returns {F : Type} `{Number F} (chunks : list str)
    (total_seconds segment_seconds fps : F)
    (min_frames frame_step segments_count : Z) (idxs : list Z) :
  Forall (fun idx =>
            0 <= idx < Z.of_nat (length chunks)
            /\ exists f,
                 segment_frames
                   (segment_duration total_seconds segment_seconds
                      segments_count idx) fps min_frames frame_step = Ok f)
    idxs ->
  forall acc : list (segment F),
    exists plan,
      for_in idxs
        (plan_step chunks total_seconds segment_seconds fps min_frames
           frame_step segments_count) acc = Ok plan
      /\ length plan = (length acc + length idxs)%nat.
Proof.
  induction idxs as [|idx idxs IH]; intros Hin acc.
  - exists acc. split; [reflexivity | cbn; lia].
  - inversion Hin as [|? ? [Hidx [f Hf]] Hrest]; subst.
    cbn [for_in]. unfold plan_step at 1. rewrite Hf. cbn [bind].
    destruct (lookup_lt_is_Some_2 chunks (Z.to_nat idx) ltac:(lia))
      as [chunk Hchunk].
    rewrite (item_ok _ _ _ Hchunk). cbn [bind].
    match goal with
    | |- context [for_in idxs _ ?a] => destruct (IH Hrest a) as (plan & Hrun & Hlen)
    end.
    exists plan. split; [exact Hrun|].
    rewrite Hlen, length_app. cbn [length]. lia.
Qed.

(** X9: [_build_segments_plan] can fail in its arithmetic only, whichever
    it is: when the division of the total by the segment length gives a
    quotient, [math.ceil] gives its ceiling [c], and the frame count of
    each of the [max(1, c)] segments can be computed, the planner returns
    a plan of [max(1, c)] entries; neither the splitting of the prompt nor
    the look-up of a chunk fails. *)
Theorem planner_fails_only_in_arithmetic {F : Type} `{Number F} (text : str)
    (total_minutes segment_seconds fps : F) (min_frames frame_step : Z)
    (q : F) (c : Z) :
  num_truediv (total_minutes * num_of_int 60)%num segment_seconds = Ok q ->
  num_ceil q = Ok c ->
  (forall idx,
      0 <= idx < Z.max 1 c ->
      exists f,
        segment_frames
          (segment_duration (total_minutes * num_of_int 60)%num
             segment_seconds (Z.max 1 c) idx)
          fps min_frames frame_step = Ok f) ->
  exists plan,
    _build_segments_plan text total_minutes segment_seconds fps min_frames
      frame_step = Ok plan
    /\ Z.of_nat (length plan) = Z.max 1 c.
Proof.
  intros Hq Hc Hframes. unfold _build_segments_plan.
  rewrite Hq. cbn [bind]. rewrite Hc. cbn [bind].
  set (n := Z.max 1 c) in *.
  assert (Hn : 1 <= n) by (unfold n; lia).
  destruct (split_prompt_returns text n Hn) as (chunks & Hsplit & Hlen).
  rewrite Hsplit. cbn [bind].
  destruct (plan_loop_returns chunks (total_minutes * num_of_int 60)%num
              segment_seconds fps min_frames frame_step n (range n))
    with (acc := @nil (segment F)) as (plan & Hrun & Hplan).
  { eapply Forall_impl; [apply range_bounds|].
    intros idx Hidx. cbn beta in Hidx. split; [lia | now apply Hframes]. }
  exists plan. split; [exact Hrun|].
  rewrite Hplan, range_length. cbn [length]. lia.
Qed.

Lemma planner_fails_only_in_arithmetic_witness :
  num_truediv (quarter_minute * num_of_int 60)%num seven
  = Ok (S754_finite false 4825285315039817 (-51))
  /\ num_ceil (S754_finite false 4825285315039817 (-51)) = Ok 3
  /\ (forall idx,
        0 <= idx < Z.max 1 3 ->
        exists f,
          segment_frames
            (segment_duration (quarter_minute * num_of_int 60)%num seven
               (Z.max 1 3) idx)
            (Binary64.of_int 8) 8 2 = Ok f)
  /\ exists plan,
       _build_segments_plan test_handler_prompt quarter_minute seven
         (Binary64.of_int 8) 8 2 = Ok plan
       /\ Z.of_nat (length plan) = Z.max 1 3.
Proof.
  assert (H1 : num_truediv (quarter_minute * num_of_int 60)%num seven
               = Ok (S754_finite false 4825285315039817 (-51)))
    by (vm_compute; reflexivity).
  assert (H2 : num_ceil (S754_finite false 4825285315039817 (-51)) = Ok 3)
    by (vm_compute; reflexivity).
  assert (H3 : forall idx,
            0 <= idx < Z.max 1 3 ->
            exists f,
              segment_frames
                (segment_duration (quarter_minute * num_of_int 60)%num seven
                   (Z.max 1 3) idx)
                (Binary64.of_int 8) 8 2 = Ok f).
  { intros idx Hidx. exists 56.
    assert (Hcases : idx = 0 \/ idx = 1 \/ idx = 2) by lia.
    destruct Hcases as [->|[->| ->]]; vm_compute; reflexivity. }
  split; [exact H1|]. split; [exact H2|]. split; [exact H3|].
  exact (planner_fails_only_in_arithmetic test_handler_prompt quarter_minute
           seven (Binary64.of_int 8) 8 2 _ 3 H1 H2 H3).
Defined.

(** ** The handler, beyond validation *)

(** X13: when validation passes, the configuration resolves and the
    planner returns a plan, but [prompts_max] holds something that is not
    a number (and [add_video_task] leaves it alone), the handler raises
    [TypeError] only after it has handed every job of the plan to
    [add_video_task]: the jobs are submitted, [prompts_max] is as it was
    and no warning is raised. *)
Theorem counter_type_error_after_jobs {F : Type} `{Number F} (h : host F)
    (state settings0 : gmap string (value F)) (text : str)
    (total_minutes segment_seconds fps_number : F)
    (min_frames frame_step : Z) (w : world F) (v : value F)
    (plan : list (segment F)) :
  _validate_inputs text total_minutes segment_seconds = None ->
  configuration_resolves h state settings0 fps_number min_frames frame_step ->
  _build_segments_plan text total_minutes segment_seconds fps_number
    min_frames frame_step = Ok plan ->
  gen w !! "prompts_max" = Some v ->
  number_of v = None ->
  (forall kwargs g,
      add_video_task h kwargs g !! "prompts_max" = g !! "prompts_max") ->
  exists w',
    _create_segments h state text total_minutes segment_seconds w
    = (Raise TypeError, w')
    /\ submitted w' = submitted w ++ planned_jobs h state settings0 plan
    /\ length (planned_jobs h state settings0 plan) = length plan
    /\ gen w' !! "prompts_max" = Some v
    /\ warnings w' = warnings w.
Proof.
  intros Hvalid Hres Hplan Hv Hnum Hkeep.
  pose proof (create_segments_run h state settings0 text total_minutes
                segment_seconds fps_number min_frames frame_step w
                Hvalid Hres) as Hrun.
  rewrite Hplan, enqueue_plan_run in Hrun. cbv zeta in Hrun.
  fold (planned_jobs h state settings0 plan) in Hrun.
  set (g2 := foldl _ _ _) in Hrun.
  assert (Hg2 : g2 !! "prompts_max" = Some v).
  { unfold g2. rewrite (foldl_keeps_key h "prompts_max" _ Hkeep).
    now rewrite setdefault_other. }
  assert (Hget : dict_get g2 "prompts_max" (VInt 0) = v)
    by (unfold dict_get; now rewrite Hg2).
  rewrite Hget, (add_int_not_number v _ Hnum) in Hrun.
  eexists. split; [exact Hrun|].
  cbn [gen submitted warnings].
  split; [reflexivity|]. split; [apply length_map|].
  split; [exact Hg2 | reflexivity].
Qed.

Lemma counter_type_error_after_jobs_witness :
  _validate_inputs test_handler_prompt quarter_minute seven = None
  /\ configuration_resolves test_host test_state test_settings
       (Binary64.of_int 8) 8 2
  /\ _build_segments_plan test_handler_prompt quarter_minute seven
       (Binary64.of_int 8) 8 2 = Ok test_handler_plan
  /\ gen stale_world !! "prompts_max" = Some VNone
  /\ number_of (VNone : value spec_float) = None
  /\ (forall kwargs g,
        add_video_task test_host kwargs g !! "prompts_max"
        = g !! "prompts_max")
  /\ exists w',
       _create_segments test_host test_state test_handler_prompt
         quarter_minute seven stale_world = (Raise TypeError, w')
       /\ submitted w'
          = submitted stale_world
            ++ planned_jobs test_host test_state test_settings
                 test_handler_plan
       /\ length (planned_jobs test_host test_state test_settings
                    test_handler_plan)
          = length test_handler_plan
       /\ gen w' !! "prompts_max" = Some VNone
       /\ warnings w' = warnings stale_world.
Proof.
  assert (H3 : gen stale_world !! "prompts_max" = Some VNone)
    by (vm_compute; reflexivity).
  assert (H4 : number_of (VNone : value spec_float) = None) by reflexivity.
  split; [exact test_inputs_valid|].
  split; [exact test_configuration_resolves|].
  split; [exact test_handler_plan_run|].
  split; [exact H3|]. split; [exact H4|].
  split; [exact test_host_keeps_prompts_max|].
  exact (counter_type_error_after_jobs test_host test_state test_settings
           test_handler_prompt quarter_minute seven (Binary64.of_int 8) 8 2
           stale_world VNone test_handler_plan
           test_inputs_valid test_configuration_resolves
           test_handler_plan_run H3 H4 test_host_keeps_prompts_max).
Defined.

(** X14: when validation passes, the configuration resolves and the
    planner returns a plan, the jobs the handler submits, whether or not
    it then fails on [prompts_max], are the model settings with the job's
    own entries laid over them: a job has no [lset_name], it has a [mode]
    (the settings' own, or the empty string), it carries the state, the
    state's [model_type] and [model_filename], and under [plugin_data] the
    segment number, the number of segments, the segment's seconds and the
    frame rate; every other key of the settings is passed on unchanged. *)
Theorem jobs_carry_settings {F : Type} `{Number F} (h : host F)
    (state settings0 : gmap string (value F)) (text : str)
    (total_minutes segment_seconds fps_number : F)
    (min_frames frame_step : Z) (w : world F) (plan : list (segment F)) :
  _validate_inputs text total_minutes segment_seconds = None ->
  configuration_resolves h state settings0 fps_number min_frames frame_step ->
  _build_segments_plan text total_minutes segment_seconds fps_number
    min_frames frame_step = Ok plan ->
  exists r w',
    _create_segments h state text total_minutes segment_seconds w = (r, w')
    /\ submitted w' = submitted w ++ planned_jobs h state settings0 plan
    /\ (forall (i : nat) (s : segment F),
          plan !! i = Some s ->
          index s = Z.of_nat i + 1 /\
          exists kwargs,
            planned_jobs h state settings0 plan !! i = Some kwargs
            /\ kwargs !! "lset_name" = None
            /\ kwargs !! "mode" = Some (dict_get settings0 "mode" (VStr []))
            /\ kwargs !! "state" = Some (VDict state)
            /\ kwargs !! "model_type"
               = Some (dict_get state "model_type" VNone)
            /\ kwargs !! "model_filename"
               = Some (dict_get state "model_filename" VNone)
            /\ kwargs !! "plugin_data"
               = Some (VDict {[ "auto_video_composer" :=
                    VDict (<["fps" := resolved_fps h state settings0]>
                          (<["segment_seconds" := VFloat (seconds s)]>
                          (<["total_segments" := VInt (Z.of_nat (length plan))]>
                          (<["segment" := VInt (index s)]> ∅)))) ]})
            /\ forall k : string,
                 k ∉ ["prompt"; "video_length"; "state"; "model_type";
                      "model_filename"; "plugin_data"; "lset_name"; "mode"] ->
                 kwargs !! k = settings0 !! k).
Proof.
  intros Hvalid Hres Hplan.
  pose proof (create_segments_run h state settings0 text total_minutes
                segment_seconds fps_number min_frames frame_step w
                Hvalid Hres) as Hrun.
  rewrite Hplan, enqueue_plan_run in Hrun. cbv zeta in Hrun.
  fold (planned_jobs h state settings0 plan) in Hrun.
  destruct (plan_entries _ _ _ _ _ _ _ Hplan)
    as (q & c & chunks & _ & _ & _ & _ & _ & Hshape).
  destruct (add_int _ _) as [n|e]; eexists _, _;
    (split; [exact Hrun|]); (split; [reflexivity|]); intros i s Hi;
    (split; [exact (proj1 (Hshape i s Hi)) | now apply planned_job_lookup]).
Qed.

Lemma jobs_carry_settings_witness :
  _validate_inputs test_handler_prompt quarter_minute seven = None
  /\ configuration_resolves test_host test_state test_settings
       (Binary64.of_int 8) 8 2
  /\ _build_segments_plan test_handler_prompt quarter_minute seven
       (Binary64.of_int 8) 8 2 = Ok test_handler_plan
  /\ exists r w',
       _create_segments test_host test_state test_handler_prompt
         quarter_minute seven test_world = (r, w')
       /\ submitted w'
          = submitted test_world
            ++ planned_jobs test_host test_state test_settings
                 test_handler_plan
       /\ (forall (i : nat) (s : segment spec_float),
             test_handler_plan !! i = Some s ->
             index s = Z.of_nat i + 1 /\
          exists kwargs,
            planned_jobs test_host test_state test_settings test_handler_plan
              !! i = Some kwargs
            /\ kwargs !! "lset_name" = None
            /\ kwargs !! "mode" = Some (dict_get test_settings "mode" (VStr []))
            /\ kwargs !! "state" = Some (VDict test_state)
            /\ kwargs !! "model_type"
               = Some (dict_get test_state "model_type" VNone)
            /\ kwargs !! "model_filename"
               = Some (dict_get test_state "model_filename" VNone)
            /\ kwargs !! "plugin_data"
               = Some (VDict {[ "auto_video_composer" :=
                    VDict (<["fps" := resolved_fps test_host test_state test_settings]>
                          (<["segment_seconds" := VFloat (seconds s)]>
                          (<["total_segments" :=
                               VInt (Z.of_nat (length test_handler_plan))]>
                          (<["segment" := VInt (index s)]> ∅)))) ]})
            /\ forall k : string,
                 k ∉ ["prompt"; "video_length"; "state"; "model_type";
                      "model_filename"; "plugin_data"; "lset_name"; "mode"] ->
                 kwargs !! k = test_settings !! k).
Proof.
  split; [exact test_inputs_valid|].
  split; [exact test_configuration_resolves|].
  split; [exact test_handler_plan_run|].
  exact (jobs_carry_settings test_host test_state test_settings
           test_handler_prompt quarter_minute seven (Binary64.of_int 8) 8 2
           test_world test_handler_plan
           test_inputs_valid test_configuration_resolves
           test_handler_plan_run).
Defined.

(** X16: whenever a run of the handler raises a warning, it is one
    warning, with one of the seven messages of the plugin; the handler
    returns that message behind the warning sign, and it has done nothing
    else: no job is submitted and the generation info is untouched. *)
Theorem warning_means_nothing_done {F : Type} `{Number F} (h : host F)
    (state : gmap string (value F)) (text : str)
    (total_minutes segment_seconds : F) (w w' : world F)
    (r : result (response F)) :
  _create_segments h state text total_minutes segment_seconds w = (r, w') ->
  warnings w' <> warnings w ->
  exists m,
    In m handler_messages
    /\ warnings w' = warnings w ++ [m]
    /\ gen w' = gen w
    /\ submitted w' = submitted w
    /\ (r = Ok (Summary (warning_sign ++ m))
        \/ r = Ok (SummaryAndQueue (warning_sign ++ m) NoChange)).
Proof.
  assert (Hdone : forall m q,
            In m handler_messages ->
            _build_error_response m q w = (r, w') ->
            exists m,
              In m handler_messages
              /\ warnings w' = warnings w ++ [m]
              /\ gen w' = gen w
              /\ submitted w' = submitted w
              /\ (r = Ok (Summary (warning_sign ++ m))
                  \/ r = Ok (SummaryAndQueue (warning_sign ++ m) NoChange))).
  { intros m q Hm Hrun. rewrite error_response_run in Hrun.
    injection Hrun as <- <-. exists m. cbn [gen submitted warnings].
    repeat (split; [assumption || reflexivity|]).
    destruct q; [now right | now left]. }
  unfold _create_segments. intros Hrun Hwarn.
  destruct (_validate_inputs text total_minutes segment_seconds)
    as [m|] eqn:Hvalid; cbn [truthy default] in Hrun.
  { pose proof (validate_messages _ _ _ _ Hvalid) as Hm.
    assert (Hne : is_empty m = false).
    { destruct Hm as [<-|[<-|[<-|[]]]]; reflexivity. }
    rewrite Hne in Hrun. cbn [negb] in Hrun.
    refine (Hdone m _ _ Hrun).
    unfold handler_messages. cbn [In] in *. tauto. }
  destruct (get_current_model_settings h state) as [settings0|].
  2:{ apply (Hdone _ _ ltac:(do 3 right; now left) Hrun). }
  destruct (is_none _).
  { apply (Hdone _ _ ltac:(do 4 right; now left) Hrun). }
  destruct (number_of _) as [fps_number|].
  2:{ apply (Hdone _ _ ltac:(do 5 right; now left) Hrun). }
  destruct (num_leb fps_number (num_of_int 0)).
  { apply (Hdone _ _ ltac:(do 5 right; now left) Hrun). }
  destruct (get_model_min_frames_and_step h _) as [[min_frames frame_step] ?].
  destruct ((min_frames <=? 0) || (frame_step <=? 0)).
  { apply (Hdone _ _ ltac:(do 6 right; now left) Hrun). }
  exfalso. apply Hwarn.
  unfold bindM at 1 in Hrun. unfold lift at 1 in Hrun.
  destruct (_build_segments_plan _ _ _ _ _ _) as [plan|e].
  - rewrite enqueue_plan_run in Hrun. cbv zeta in Hrun.
    destruct (add_int _ _); injection Hrun as _ <-; reflexivity.
  - injection Hrun as _ <-. reflexivity.
Qed.

Lemma warning_means_nothing_done_witness :
  _create_segments no_settings_host test_state test_handler_prompt
    quarter_minute seven test_world
  = (Ok (Summary (warning_sign ++ msg_settings)),
     {| gen := gen test_world; submitted := [];
        warnings := [msg_settings] |})
  /\ [msg_settings] <> warnings test_world
  /\ exists m,
       In m handler_messages
       /\ [msg_settings] = warnings test_world ++ [m]
       /\ gen test_world = gen test_world
       /\ @nil (gmap string (value spec_float)) = submitted test_world
       /\ (Ok (@Summary spec_float (warning_sign ++ msg_settings))
           = Ok (Summary (warning_sign ++ m))
           \/ Ok (@Summary spec_float (warning_sign ++ msg_settings))
              = Ok (SummaryAndQueue (warning_sign ++ m) NoChange)).
Proof.
  assert (H1 : _create_segments no_settings_host test_state
                 test_handler_prompt quarter_minute seven test_world
               = (Ok (Summary (warning_sign ++ msg_settings)),
                  {| gen := gen test_world; submitted := [];
                     warnings := [msg_settings] |}))
    by (vm_compute; reflexivity).
  assert (H2 : [msg_settings] <> warnings test_world) by discriminate.
  split; [exact H1|]. split; [exact H2|].
  exact (warning_means_nothing_done no_settings_host test_state
           test_handler_prompt quarter_minute seven test_world _ _ H1 H2).
Defined.

Lemma strip_not_nil_iff (s : str) :
  strip s <> [] <-> exists c, In c s /\ isspace c = false.
Proof.
  rewrite strip_nil_iff. unfold nonspace. split.
  - intros Hne.
    destruct (List.filter (fun c => negb (isspace c)) s) as [|c r] eqn:E;
      [contradiction|].
    assert (Hin : In c (List.filter (fun c => negb (isspace c)) s))
      by (rewrite E; now left).
    apply filter_In in Hin as [Hin Hc].
    exists c. split; [exact Hin|]. now apply negb_true_iff.
  - intros (c & Hin & Hc) E.
    assert (Hf : In c (List.filter (fun c => negb (isspace c)) s))
      by (apply filter_In; split; [exact Hin | now rewrite Hc]).
    rewrite E in Hf. contradiction.
Qed.

(** X17: [_validate_inputs] accepts its input, returning [None], exactly
    when the prompt has a character that is not white space and [<= 0]
    holds neither of the total duration nor of the segment length. *)
Theorem validate_inputs_accepts {F : Type} `{Number F} (text : str)
    (total_minutes segment_seconds : F) :
  _validate_inputs text total_minutes segment_seconds = None
  <-> (exists c, In c text /\ isspace c = false)
      /\ num_leb total_minutes (num_of_int 0) = false
      /\ num_leb segment_seconds (num_of_int 0) = false.
Proof.
  rewrite <- strip_not_nil_iff. unfold _validate_inputs. split.
  - destruct (is_empty text || _) eqn:Eb; [discriminate|].
    destruct (num_leb total_minutes _) eqn:Et; [discriminate|].
    destruct (num_leb segment_seconds _) eqn:Es; [discriminate|].
    intros _. split; [|now split].
    intros E. apply strip_nil_blank in E. congruence.
  - intros (Hne & -> & ->).
    destruct (is_empty text || _) eqn:Eb; [|reflexivity].
    apply strip_nil_blank in Eb. contradiction.
Qed.

(** X18: when validation passes but the host has no model settings, the
    handler raises the warning for that and returns the bare warning
    text, also when the host has the queue component, for which every
    other warning is returned together with a no-change update. *)
Theorem missing_settings_returns_bare_text {F : Type} `{Number F}
    (h : host F) (state : gmap string (value F)) (text : str)
    (total_minutes segment_seconds : F) (w : world F) :
  _validate_inputs text total_minutes segment_seconds = None ->
  get_current_model_settings h state = None ->
  _create_segments h state text total_minutes segment_seconds w
  = (Ok (Summary (warning_sign ++ msg_settings)),
     {| gen := gen w; submitted := submitted w;
        warnings := warnings w ++ [msg_settings] |}).
Proof.
  intros Hvalid Hset. unfold _create_segments.
  rewrite Hvalid, Hset. cbn [truthy].
  exact (error_response_run msg_settings false w).
Qed.

Lemma missing_settings_returns_bare_text_witness :
  _validate_inputs test_handler_prompt quarter_minute seven = None
  /\ get_current_model_settings no_settings_host test_state = None
  /\ has_queue_html_container no_settings_host = true
  /\ _create_segments no_settings_host test_state test_handler_prompt
       quarter_minute seven test_world
     = (Ok (Summary (warning_sign ++ msg_settings)),
        {| gen := gen test_world; submitted := submitted test_world;
           warnings := warnings test_world ++ [msg_settings] |}).
Proof.
  assert (H1 : _validate_inputs test_handler_prompt quarter_minute seven
               = None) by (vm_compute; reflexivity).
  assert (H2 : get_current_model_settings no_settings_host test_state = None)
    by reflexivity.
  split; [exact H1|]. split; [exact H2|]. split; [reflexivity|].
  exact (missing_settings_returns_bare_text no_settings_host test_state
           test_handler_prompt quarter_minute seven test_world H1 H2).
Defined.

(** X19: when validation passes and the host has model settings, but the
    base model type is [None], or the frame rate is not a positive
    number, or a frame constant is not positive, the handler raises the
    warning of the first of these that applies (base model, then frame
    rate, then frame constants) and returns at once: nothing is planned
    or submitted and the generation info is untouched. *)
Theorem configuration_failure_aborts {F : Type} `{Number F} (h : host F)
    (state settings0 : gmap string (value F)) (text : str)
    (total_minutes segment_seconds : F) (w : world F)
    (min_frames frame_step : Z) (extra : value F) :
  _validate_inputs text total_minutes segment_seconds = None ->
  get_current_model_settings h state = Some settings0 ->
  get_model_min_frames_and_step h
    (get_base_model_type h (dict_get state "model_type" VNone))
  = (min_frames, frame_step, extra) ->
  is_none (get_base_model_type h (dict_get state "model_type" VNone)) = true
  \/ ~ positive_number (resolved_fps h state settings0)
  \/ min_frames <= 0 \/ frame_step <= 0 ->
  exists m,
    (is_none (get_base_model_type h (dict_get state "model_type" VNone))
     = true -> m = msg_base_model)
    /\ (is_none (get_base_model_type h (dict_get state "model_type" VNone))
        = false ->
        ~ positive_number (resolved_fps h state settings0) -> m = msg_fps)
    /\ (is_none (get_base_model_type h (dict_get state "model_type" VNone))
        = false ->
        positive_number (resolved_fps h state settings0) -> m = msg_frames)
    /\ _create_segments h state text total_minutes segment_seconds w
       = (Ok (if has_queue_html_container h
              then SummaryAndQueue (warning_sign ++ m) NoChange
              else Summary (warning_sign ++ m)),
          {| gen := gen w; submitted := submitted w;
             warnings := warnings w ++ [m] |}).
Proof.
  intros Hvalid Hset Hcfg Hbad.
  unfold _create_segments. rewrite Hvalid, Hset. cbn [truthy].
  fold (job_settings settings0). fold (resolved_fps h state settings0).
  destruct (is_none _) eqn:Hbase.
  { exists msg_base_model. split; [reflexivity|].
    split; [discriminate|]. split; [discriminate|].
    apply error_response_run. }
  unfold positive_number in *.
  destruct (number_of (resolved_fps h state settings0)) as [q|] eqn:Hnum.
  2:{ exists msg_fps. split; [discriminate|]. split; [reflexivity|].
      split; [intros _ (q & Hq & _); discriminate|].
      apply error_response_run. }
  destruct (num_leb q (num_of_int 0)) eqn:Hq.
  { exists msg_fps. split; [discriminate|]. split; [reflexivity|].
    split; [intros _ (q' & [= <-] & Hpos); congruence|].
    apply error_response_run. }
  rewrite Hcfg.
  destruct ((min_frames <=? 0) || (frame_step <=? 0)) eqn:Hf.
  { exists msg_frames. split; [discriminate|].
    split; [intros _ Hn; exfalso; apply Hn; now exists q|].
    split; [reflexivity|]. apply error_response_run. }
  exfalso. apply orb_false_iff in Hf as [Hm Hs].
  apply Z.leb_gt in Hm, Hs.
  destruct Hbad as [Hb|[Hb|[Hb|Hb]]]; [discriminate| |lia|lia].
  apply Hb. now exists q.
Qed.

Lemma configuration_failure_aborts_witness :
  _validate_inputs test_handler_prompt quarter_minute seven = None
  /\ get_current_model_settings no_model_host test_state = Some test_settings
  /\ get_model_min_frames_and_step no_model_host
       (get_base_model_type no_model_host
          (dict_get test_state "model_type" VNone)) = (8, 2, VNone)
  /\ (is_none (get_base_model_type no_model_host
                 (dict_get test_state "model_type" VNone)) = true
      \/ ~ positive_number (resolved_fps no_model_host test_state test_settings)
      \/ 8 <= 0 \/ 2 <= 0)
  /\ exists m,
       (is_none (get_base_model_type no_model_host
                   (dict_get test_state "model_type" VNone)) = true ->
        m = msg_base_model)
       /\ (is_none (get_base_model_type no_model_host
                      (dict_get test_state "model_type" VNone)) = false ->
           ~ positive_number
               (resolved_fps no_model_host test_state test_settings) ->
           m = msg_fps)
       /\ (is_none (get_base_model_type no_model_host
                      (dict_get test_state "model_type" VNone)) = false ->
           positive_number
             (resolved_fps no_model_host test_state test_settings) ->
           m = msg_frames)
       /\ _create_segments no_model_host test_state test_handler_prompt
            quarter_minute seven test_world
          = (Ok (if has_queue_html_container no_model_host
                 then SummaryAndQueue (warning_sign ++ m) NoChange
                 else Summary (warning_sign ++ m)),
             {| gen := gen test_world; submitted := submitted test_world;
                warnings := warnings test_world ++ [m] |}).
Proof.
  assert (H1 : _validate_inputs test_handler_prompt quarter_minute seven
               = None) by (vm_compute; reflexivity).
  assert (H2 : get_current_model_settings no_model_host test_state
               = Some test_settings) by reflexivity.
  assert (H3 : get_model_min_frames_and_step no_model_host
                 (get_base_model_type no_model_host
                    (dict_get test_state "model_type" VNone))
               = (8, 2, VNone)) by reflexivity.
  assert (H4 : is_none (get_base_model_type no_model_host
                          (dict_get test_state "model_type" VNone)) = true
               \/ ~ positive_number
                      (resolved_fps no_model_host test_state test_settings)
               \/ 8 <= 0 \/ 2 <= 0) by (left; reflexivity).
  split; [exact H1|]. split; [exact H2|]. split; [exact H3|].
  split; [exact H4|].
  exact (configuration_failure_aborts no_model_host test_state test_settings
           test_handler_prompt quarter_minute seven test_world 8 2 VNone
           H1 H2 H3 H4).
Defined.

(** X21: when validation passes and the configuration resolves but the
    planner raises an exception (on floats, [OverflowError] for a total
    duration whose product or quotient is beyond the floats), the handler
    raises the same exception and has done nothing: no warning, no job,
    the generation info as before; not even [queue] is created. *)
Theorem planner_failure_leaves_world {F : Type} `{Number F} (h : host F)
    (state settings0 : gmap string (value F)) (text : str)
    (total_minutes segment_seconds fps_number : F)
    (min_frames frame_step : Z) (w : world F) (e : exn) :
  _validate_inputs text total_minutes segment_seconds = None ->
  configuration_resolves h state settings0 fps_number min_frames frame_step ->
  _build_segments_plan text total_minutes segment_seconds fps_number
    min_frames frame_step = Raise e ->
  _create_segments h state text total_minutes segment_seconds w = (Raise e, w).
Proof.
  intros Hvalid Hres Hplan.
  rewrite (create_segments_run h state settings0 text total_minutes
             segment_seconds fps_number min_frames frame_step w Hvalid Hres).
  now rewrite Hplan.
Qed.

Lemma planner_failure_leaves_world_witness :
  _validate_inputs test_handler_prompt (Binary64.of_int (10 ^ 308)) seven
  = None
  /\ configuration_resolves test_host test_state test_settings
       (Binary64.of_int 8) 8 2
  /\ _build_segments_plan test_handler_prompt (Binary64.of_int (10 ^ 308))
       seven (Binary64.of_int 8) 8 2 = Raise OverflowError
  /\ _create_segments test_host test_state test_handler_prompt
       (Binary64.of_int (10 ^ 308)) seven empty_world
     = (Raise OverflowError, empty_world).
Proof.
  assert (H1 : _validate_inputs test_handler_prompt
                 (Binary64.of_int (10 ^ 308)) seven = None)
    by (vm_compute; reflexivity).
  assert (H3 : _build_segments_plan test_handler_prompt
                 (Binary64.of_int (10 ^ 308)) seven (Binary64.of_int 8) 8 2
               = Raise OverflowError) by (vm_compute; reflexivity).
  split; [exact H1|]. split; [exact test_configuration_resolves|].
  split; [exact H3|].
  exact (planner_failure_leaves_world test_host test_state test_settings
           test_handler_prompt (Binary64.of_int (10 ^ 308)) seven
           (Binary64.of_int 8) 8 2 empty_world OverflowError
           H1 test_configuration_resolves H3).
Defined.

(** ** The summary *)

Lemma no_linebreak_count (s : str) :
  Forall (fun c => is_linebreak c = false) s ->
  count_occ N.eq_dec s 10%N = 0%nat.
Proof.
  induction 1 as [|c s Hc _ IH]; [reflexivity|].
  cbn [count_occ]. destruct (N.eq_dec c 10%N) as [->|_]; [discriminate | exact IH].
Qed.

Lemma uint_string_no_linebreak (d : Decimal.uint) :
  Forall (fun c => is_linebreak c = false) (lit (NilEmpty.string_of_uint d)).
Proof.
  induction d; cbn; constructor; try reflexivity; assumption.
Qed.

Lemma str_of_int_no_linebreak (z : Z) :
  Forall (fun c => is_linebreak c = false) (str_of_int z).
Proof.
  unfold str_of_int, NilZero.string_of_int, NilZero.string_of_uint.
  destruct (Z.to_int z) as [d|d].
  - destruct d; try apply uint_string_no_linebreak. repeat constructor.
  - change (lit (String "-" ?s)) with (45%N :: lit s).
    constructor; [reflexivity|].
    destruct d; try apply uint_string_no_linebreak. repeat constructor.
Qed.

Lemma join_newline_count (lines : list str) :
  Forall (Forall (fun c => is_linebreak c = false)) lines ->
  count_occ N.eq_dec (join [10%N] lines) 10%N = (length lines - 1)%nat.
Proof.
  induction 1 as [|x lines Hx HF IH]; [reflexivity|].
  destruct lines as [|y lines].
  - cbn [join length]. now apply no_linebreak_count.
  - change (join [10%N] (x :: y :: lines))
      with (x ++ [10%N] ++ join [10%N] (y :: lines)).
    rewrite !count_occ_app, IH.
    pose proof (no_linebreak_count x Hx) as Hx0.
    unfold str, char in *. rewrite Hx0.
    cbn [count_occ length].
    destruct (N.eq_dec 10%N 10%N); [lia | contradiction].
Qed.

Lemma split_prompt_no_linebreak (text : str) (segments : Z)
    (chunks : list str) :
  1 <= segments ->
  _split_prompt text segments = Ok chunks ->
  Forall (Forall (fun c => is_linebreak c = false)) chunks.
Proof.
  intros Hseg Hrun.
  destruct (strip text) as [|c r] eqn:Hb.
  - unfold _split_prompt in Hrun.
    rewrite (proj2 (sentences_nil_iff text) Hb), Hb in Hrun.
    injection Hrun as <-. apply Forall_forall. intros x Hx.
    apply elem_of_replicate in Hx as [-> _]. constructor.
  - destruct (split_prompt_clean text segments) as (chunks' & Hrun' & _ & Hc);
      [rewrite Hb; discriminate | exact Hseg |].
    rewrite Hrun in Hrun'. injection Hrun' as <-.
    eapply Forall_impl; [exact Hc|]. now intros x (_ & _ & Hx).
Qed.

Lemma annotation_no_linebreak (number segments_count : Z) :
  Forall (fun c => is_linebreak c = false) (annotation number segments_count).
Proof.
  unfold annotation.
  repeat (apply Forall_app; split);
    try apply str_of_int_no_linebreak; repeat constructor.
Qed.


(** X20: for a plan that [_build_segments_plan] returns, in whichever
    arithmetic and for any prompt, the rendered summary has the header
    line and exactly one further line for every segment, provided that
    the printed form of a number has no line break: the summary contains
    as many newline characters as the plan has entries. *)
Theorem summary_has_a_line_per_segment {F : Type} `{Number F} (text : str)
    (total_minutes segment_seconds fps : F) (min_frames frame_step : Z)
    (plan : list (segment F)) (repr : F -> str) :
  _build_segments_plan text total_minutes segment_seconds fps min_frames
    frame_step = Ok plan ->
  (forall x, Forall (fun c => is_linebreak c = false) (repr x)) ->
  count_occ N.eq_dec (_render_summary repr plan) 10%N = length plan.
Proof.
  intros Hrun Hrepr.
  destruct (plan_entries _ _ _ _ _ _ _ Hrun)
    as (q & c & chunks & _ & _ & _ & Hsplit & _ & Hshape).
  pose proof (plan_not_empty _ _ _ _ _ _ _ Hrun) as Hn.
  pose proof (split_prompt_no_linebreak text _ chunks Hn Hsplit) as Hchunks.
  unfold _render_summary. rewrite join_newline_count.
  { cbn [length]. rewrite length_map. lia. }
  constructor; [repeat constructor|].
  apply Forall_forall. intros row Hrow.
  apply list_elem_of_In, in_map_iff in Hrow as (item & <- & Hitem).
  apply list_elem_of_In, list_elem_of_lookup in Hitem as [i Hi].
  destruct (Hshape i item Hi) as (_ & (chunk & Hchunk & Hprompt) & _).
  rewrite Hprompt.
  repeat (apply Forall_app; split);
    try apply str_of_int_no_linebreak; try apply Hrepr;
    try apply annotation_no_linebreak; try (repeat constructor; fail).
  rewrite Forall_forall in Hchunks.
  apply Hchunks. eapply list_elem_of_lookup_2. exact Hchunk.
Qed.

Lemma summary_has_a_line_per_segment_witness :
  _build_segments_plan test_prompt half_minute seven (Binary64.of_int 10) 8 2
  = Ok test_plan
  /\ (forall x : spec_float,
        Forall (fun c => is_linebreak c = false) (lit "7.0"))
  /\ count_occ N.eq_dec (_render_summary (fun _ => lit "7.0") test_plan) 10%N
     = length test_plan.
Proof.
  assert (H : _build_segments_plan test_prompt half_minute seven
                (Binary64.of_int 10) 8 2 = Ok test_plan)
    by (vm_compute; reflexivity).
  assert (Hr : forall x : spec_float,
            Forall (fun c => is_linebreak c = false) (lit "7.0"))
    by (intros x; repeat constructor).
  split; [exact H|]. split; [exact Hr|].
  exact (summary_has_a_line_per_segment test_prompt half_minute seven
           (Binary64.of_int 10) 8 2 test_plan (fun _ => lit "7.0") H Hr).
Defined.

(** ** The integer conversions on floats *)

Lemma float_ceil_spec (f : spec_float) (c : Z) :
  Binary64.ceil f = Ok c ->
  exists v, Binary64.to_Q f = Ok v /\ (v <= inject_Z c < v + 1)%Q.
Proof.
  unfold Binary64.ceil. destruct (Binary64.to_Q f) as [v|]; [|discriminate].
  cbn [bind]. intros [= <-]. exists v. split; [reflexivity|].
  pose proof (ceil_ge v). pose proof (ceil_lt v). split; lra.
Qed.

Lemma float_round_spec (f : spec_float) (r : Z) :
  Binary64.round f = Ok r ->
  exists v,
    Binary64.to_Q f = Ok v
    /\ (v - (1 # 2) <= inject_Z r <= v + (1 # 2))%Q.
Proof.
  unfold Binary64.round. destruct (Binary64.to_Q f) as [v|]; [|discriminate].
  cbn [bind]. intros [= <-]. exists v. split; [reflexivity|].
  apply round_near.
Qed.

(** X10: on floats, the number of entries of a returned plan is the
    least integer that is not below the quotient
    [total_minutes * 60 / segment_seconds] as the floats give it (a
    finite float [q] of exact value [v]), or one when that integer is
    smaller. *)
Theorem float_count_is_ceiling (text : str)
    (total_minutes segment_seconds fps : spec_float)
    (min_frames frame_step : Z) (plan : list (segment spec_float)) :
  _build_segments_plan text total_minutes segment_seconds fps min_frames
    frame_step = Ok plan ->
  exists (q : spec_float) (v : Q) (c : Z),
    Binary64.truediv
      (SFmul Binary64.prec Binary64.emax total_minutes (Binary64.of_int 60))
      segment_seconds = Ok q
    /\ Binary64.to_Q q = Ok v
    /\ (v <= inject_Z c < v + 1)%Q
    /\ Z.of_nat (length plan) = Z.max 1 c.
Proof.
  intros Hrun.
  destruct (plan_entries _ _ _ _ _ _ _ Hrun)
    as (q & c & chunks & Hq & Hc & Hlen & _).
  destruct (float_ceil_spec q c Hc) as (v & Hv & Hbounds).
  now exists q, v, c.
Qed.

Lemma float_count_is_ceiling_witness :
  _build_segments_plan test_handler_prompt quarter_minute seven
    (Binary64.of_int 8) 8 2 = Ok test_handler_plan
  /\ exists (q : spec_float) (v : Q) (c : Z),
       Binary64.truediv
         (SFmul Binary64.prec Binary64.emax quarter_minute
            (Binary64.of_int 60)) seven = Ok q
       /\ Binary64.to_Q q = Ok v
       /\ (v <= inject_Z c < v + 1)%Q
       /\ Z.of_nat (length test_handler_plan) = Z.max 1 c.
Proof.
  assert (H : _build_segments_plan test_handler_prompt quarter_minute seven
                (Binary64.of_int 8) 8 2 = Ok test_handler_plan)
    by (vm_compute; reflexivity).
  split; [exact H|].
  exact (float_count_is_ceiling test_handler_prompt quarter_minute seven
           (Binary64.of_int 8) 8 2 test_handler_plan H).
Defined.

(** X22: on floats, the [frames] of entry [i] of a returned plan is
    [max(min_frames, r * frame_step)] for an integer [r] within one half
    of the quotient of the segment duration times [fps] by [frame_step]
    as the floats give it (a finite float [q] of exact value [v]). *)
Theorem float_frames_round_to_nearest (text : str)
    (total_minutes segment_seconds fps : spec_float)
    (min_frames frame_step : Z) (plan : list (segment spec_float)) :
  _build_segments_plan text total_minutes segment_seconds fps min_frames
    frame_step = Ok plan ->
  forall (i : nat) (s : segment spec_float),
    plan !! i = Some s ->
    exists (q : spec_float) (v : Q) (r : Z),
      Binary64.truediv
        (SFmul Binary64.prec Binary64.emax
           (segment_duration
              (SFmul Binary64.prec Binary64.emax total_minutes
                 (Binary64.of_int 60))
              segment_seconds (Z.of_nat (length plan)) (Z.of_nat i))
           fps)
        (Binary64.of_int frame_step) = Ok q
      /\ Binary64.to_Q q = Ok v
      /\ (v - (1 # 2) <= inject_Z r <= v + (1 # 2))%Q
      /\ frames s = Z.max min_frames (r * frame_step).
Proof.
  intros Hrun i s Hi.
  destruct (plan_entries _ _ _ _ _ _ _ Hrun)
    as (q0 & c & chunks & _ & _ & _ & _ & _ & Hshape).
  destruct (Hshape i s Hi) as (_ & _ & _ & Hf).
  unfold segment_frames in Hf.
  cbn [num_truediv num_mul num_of_int num_round Binary64.binary64_number]
    in Hf.
  destruct (Binary64.truediv _ _) as [q|] eqn:Hq; [|discriminate].
  cbn [bind] in Hf.
  destruct (Binary64.round q) as [r|] eqn:Hr; [|discriminate].
  cbn [bind] in Hf. injection Hf as Hf.
  destruct (float_round_spec q r Hr) as (v & Hv & Hbounds).
  exists q, v, r. split; [reflexivity|]. split; [exact Hv|].
  split; [exact Hbounds | now symmetry].
Qed.

Lemma float_frames_round_to_nearest_witness :
  _build_segments_plan test_prompt half_minute seven (Binary64.of_int 10) 8 2
  = Ok test_plan
  /\ forall (i : nat) (s : segment spec_float),
       test_plan !! i = Some s ->
       exists (q : spec_float) (v : Q) (r : Z),
         Binary64.truediv
           (SFmul Binary64.prec Binary64.emax
              (segment_duration
                 (SFmul Binary64.prec Binary64.emax half_minute
                    (Binary64.of_int 60))
                 seven (Z.of_nat (length test_plan)) (Z.of_nat i))
              (Binary64.of_int 10))
           (Binary64.of_int 2) = Ok q
         /\ Binary64.to_Q q = Ok v
         /\ (v - (1 # 2) <= inject_Z r <= v + (1 # 2))%Q
         /\ frames s = Z.max 8 (r * 2).
Proof.
  assert (H : _build_segments_plan test_prompt half_minute seven
                (Binary64.of_int 10) 8 2 = Ok test_plan)
    by (vm_compute; reflexivity).
  split; [exact H|].
  exact (float_frames_round_to_nearest test_prompt half_minute seven
           (Binary64.of_int 10) 8 2 test_plan H).
Defined.
